(** * Principal Mapper: risk findings (analysis/find_risks.py) and
      session set-up (util/boto_tools.py)

    A shallow embedding of the two modules and the properties of the
    findings they synthesise.  Python lists are [list], dictionaries are
    [gmap], exceptions are the [Raise] branch of [Result], and the objects
    a call can change (what the query functions keep on the nodes, the
    files on disk) live in an explicit [World] that is threaded through
    the calls. *)

From Stdlib Require Import ZArith Ascii String List Bool Lia.
From stdpp Require Import base option list strings gmap fin_maps.
Import ListNotations.

Local Open Scope Z_scope.
Set Default Proof Using "Type".

(** ** Python exceptions and the error monad *)

Inductive exn : Type :=
| IndexError (msg : string)
| KeyError (key : string)
| TypeError (msg : string)
| NameError (name : string)
| UnboundLocalError (name : string)
| ValueError (msg : string)
| ExternalError (msg : string).

(** [UnboundLocalError] is a subclass of [NameError] in Python. *)
Definition is_NameError (e : exn) : bool :=
  match e with
  | NameError _ | UnboundLocalError _ => true
  | _ => false
  end.

Inductive Result (A : Type) : Type :=
| Ok (a : A)
| Raise (e : exn).
Arguments Ok {A} a.
Arguments Raise {A} e.

#[export] Instance Result_ret : MRet Result := fun _ a => Ok a.
#[export] Instance Result_bind : MBind Result := fun _ _ f m =>
  match m with
  | Ok a => f a
  | Raise e => Raise e
  end.

Definition returns {A} (r : Result A) : bool :=
  match r with
  | Ok _ => true
  | Raise _ => false
  end.

(** ** Strings *)

Definition nl : string := String (ascii_of_nat 10) EmptyString.

(** Python's [sub in s] on strings. *)
Fixpoint contains (sub s : string) : bool :=
  if String.prefix sub s then true
  else match s with
       | EmptyString => false
       | String _ s' => contains sub s'
       end.

(** Python's [seq[-1]]. *)
Definition index_last {A} (l : list A) : Result A :=
  match last l with
  | Some x => Ok x
  | None => Raise (IndexError "list index out of range")
  end.

(** Python's [d[k]] on a dictionary. *)
Definition getitem (d : gmap string string) (k : string) : Result string :=
  match d !! k with
  | Some v => Ok v
  | None => Raise (KeyError k)
  end.

(** ** Data model *)

Inductive Effect : Type := Allow | Deny.

(** Modelled from the spec: the comparison a condition block applies
    (section 4.2: exact or wildcard string comparison, numeric comparison,
    anything else is unrecognized). *)
Inductive ConditionOperator : Type :=
| ExactString
| WildcardString
| Numeric
| Unrecognized (name : string).

Record Condition : Type := mkCondition {
  cond_operator : ConditionOperator;
  cond_key : string;
  cond_values : list string
}.

(** Modelled from the spec: the policy classes of principalmapper.common
    are not part of the analysed files; section 3 gives a statement an
    effect, action patterns, resource patterns and condition blocks. *)
Record Statement : Type := mkStatement {
  st_effect : Effect;
  st_actions : list string;
  st_resources : list string;
  st_conditions : list Condition
}.

Definition PolicyDocument : Type := list Statement.

Record Group : Type := mkGroup {
  group_arn : string;
  group_policies : list PolicyDocument
}.

(** Modelled from the spec: the Node class of principalmapper.common is
    not part of the analysed files; these are the fields of section 3
    that the evaluation and find_risks.py read, under the names
    find_risks.py reads them by (it tells users from roles by the ARN). *)
Record Node : Type := mkNode {
  arn : string;
  attached_policies : list PolicyDocument;
  group_memberships : list Group;
  permissions_boundary : option PolicyDocument;
  trust_policy : option PolicyDocument;
  is_admin : bool;
  access_keys : Z;
  instance_profile : option string
}.

(** Modelled from the spec: the Edge class of principalmapper.common. *)
Record Edge : Type := mkEdge {
  source : Node;
  destination : Node;
  technique : string;
  reason : string
}.

(** Modelled from the spec: the Graph class of principalmapper.common;
    [metadata] is the dictionary gen_report subscripts. *)
Record Graph : Type := mkGraph {
  nodes : list Node;
  edges : list Edge;
  metadata : gmap string string
}.

(** analysis/finding.py is built positionally as
    Finding(title, severity, impact, description, recommendation). *)
Record Finding : Type := mkFinding {
  title : string;
  severity : string;
  impact : string;
  description : string;
  recommendation : string
}.

Definition datetime : Type := Z.

Module Report.
(** analysis/report.py: Report(account, date_and_time, findings, source). *)
Record t : Type := make {
  account : string;
  date_and_time : datetime;
  findings : list Finding;
  source : string
}.
End Report.

(** ** Loops of find_risks.py *)

(** [for x in xs: if keep x: acc.append(x)] started from [acc]. *)
Definition collect {A} (keep : A -> bool) (xs : list A) (acc : list A) : list A :=
  fold_left (fun acc x => if keep x then acc ++ [x] else acc) xs acc.

(** [for x in xs: body += line x] started from [body]. *)
Definition accumulate {A} (line : A -> string) (xs : list A) (body : string) : string :=
  fold_left (fun body x => body +:+ line x) xs body.

(** The text the loops build, written without an accumulator. *)
Fixpoint concat_lines {A} (line : A -> string) (xs : list A) : string :=
  match xs with
  | [] => EmptyString
  | x :: xs' => line x +:+ concat_lines line xs'
  end.

(** ** query_interface: the results find_risks.py compares against *)

(** Modelled from the spec: the enumeration ResourcePolicyEvalResult of
    principalmapper.querying.query_interface; find_risks.py names only
    SERVICE_MATCH, section 4.2 lists the other three outcomes. *)
Inductive ResourcePolicyEvalResult : Type :=
| NO_MATCH
| SERVICE_MATCH
| ACCOUNT_MATCH
| EXPLICIT_DENY_MATCH.

Definition ResourcePolicyEvalResult_eqb (a b : ResourcePolicyEvalResult) : bool :=
  match a, b with
  | NO_MATCH, NO_MATCH
  | SERVICE_MATCH, SERVICE_MATCH
  | ACCOUNT_MATCH, ACCOUNT_MATCH
  | EXPLICIT_DENY_MATCH, EXPLICIT_DENY_MATCH => true
  | _, _ => false
  end.

(** Python's [o is not None]. *)
Definition is_not_None {A} (o : option A) : bool :=
  match o with
  | Some _ => true
  | None => false
  end.

(** ** The authorization engine (principalmapper.querying) *)

Module AuthorizationEngine.

(** Modelled from the spec: glob matching of section 4.1, where a star
    matches any run of characters and a question mark exactly one. *)
Fixpoint glob (pattern text : string) : bool :=
  match pattern with
  | EmptyString =>
      match text with
      | EmptyString => true
      | String _ _ => false
      end
  | String p pattern' =>
      if Ascii.eqb p "*" then
        (fix star (text : string) : bool :=
           glob pattern' text
           || match text with
              | EmptyString => false
              | String _ text' => star text'
              end) text
      else
        match text with
        | EmptyString => false
        | String c text' =>
            (Ascii.eqb p "?" || Ascii.eqb p c) && glob pattern' text'
        end
  end.

Definition to_lower (c : ascii) : ascii :=
  let n := nat_of_ascii c in
  if ((65 <=? n) && (n <=? 90))%nat then ascii_of_nat (n + 32) else c.

Fixpoint lower (s : string) : string :=
  match s with
  | EmptyString => EmptyString
  | String c s' => String (to_lower c) (lower s')
  end.

(** Modelled from the spec: statement.matches_action is case-insensitive,
    statement.matches_resource case-sensitive; an empty pattern set
    matches nothing. *)
Definition matches_action (st : Statement) (action : string) : bool :=
  existsb (fun pattern => glob (lower pattern) (lower action)) (st_actions st).

Definition matches_resource (st : Statement) (resource : string) : bool :=
  existsb (fun pattern => glob pattern resource) (st_resources st).

Definition digit_value (c : ascii) : option Z :=
  let n := nat_of_ascii c in
  if ((48 <=? n) && (n <=? 57))%nat then Some (Z.of_nat (n - 48)) else None.

Fixpoint parse_digits (s : string) (acc : Z) : option Z :=
  match s with
  | EmptyString => Some acc
  | String c s' =>
      match digit_value c with
      | Some d => parse_digits s' (10 * acc + d)
      | None => None
      end
  end.

Definition parse_number (s : string) : option Z :=
  match s with
  | EmptyString => None
  | String _ _ => parse_digits s 0
  end.

Definition compare_values (op : ConditionOperator) (expected actual : string) : bool :=
  match op with
  | ExactString => String.eqb expected actual
  | WildcardString => glob expected actual
  | Numeric =>
      match parse_number expected, parse_number actual with
      | Some x, Some y => x =? y
      | _, _ => false
      end
  | Unrecognized _ => false
  end.

(** Modelled from the spec: a condition block holds when the context
    carries its key with a value one of the expected values compares
    to; an unrecognized operator never holds. *)
Definition condition_satisfied (context : gmap string string) (c : Condition) : bool :=
  match context !! cond_key c with
  | Some actual =>
      existsb (fun expected => compare_values (cond_operator c) expected actual)
              (cond_values c)
  | None => false
  end.

Definition conditions_satisfied (context : gmap string string) (st : Statement) : bool :=
  forallb (condition_satisfied context) (st_conditions st).

(** The context key a second-factor requirement tests. *)
Definition mfa_key : string := "aws:MultiFactorAuthPresent".

Definition is_mfa_requirement (c : Condition) : bool :=
  String.eqb (cond_key c) mfa_key.

Definition recognized (c : Condition) : bool :=
  match cond_operator c with
  | Unrecognized _ => false
  | _ => true
  end.

Definition is_deny (st : Statement) : bool :=
  match st_effect st with
  | Deny => true
  | Allow => false
  end.

(** An explicit Deny whose patterns match and whose conditions hold. *)
Definition deny_applies (action resource : string) (context : gmap string string)
    (st : Statement) : bool :=
  is_deny st && matches_action st action && matches_resource st resource
  && conditions_satisfied context st.

(** An explicit Allow whose patterns match; its conditions must hold,
    except that a second-factor requirement may be unmet. *)
Definition allow_applies (action resource : string) (context : gmap string string)
    (st : Statement) : bool :=
  negb (is_deny st) && matches_action st action && matches_resource st resource
  && forallb (fun c => recognized c
                       && (is_mfa_requirement c || condition_satisfied context c))
             (st_conditions st).

Definition unmet_mfa_requirement (context : gmap string string) (st : Statement) : bool :=
  existsb (fun c => is_mfa_requirement c && negb (condition_satisfied context c))
          (st_conditions st).

Inductive Outcome : Type := ExplicitAllow | ExplicitDeny | ImplicitDeny.

Definition is_ExplicitAllow (o : Outcome) : bool :=
  match o with
  | ExplicitAllow => true
  | _ => false
  end.

(** Modelled from the spec: AuthorizationDecision of section 3. *)
Record AuthorizationDecision : Type := mkDecision {
  outcome : Outcome;
  needs_second_factor : bool
}.

Definition statements_of (policies : list PolicyDocument) : list Statement :=
  concat policies.

Definition identity_statements (principal : Node) : list Statement :=
  statements_of (attached_policies principal)
  ++ statements_of (concat (map group_policies (group_memberships principal))).

Definition boundary_statements (principal : Node) : list Statement :=
  match permissions_boundary principal with
  | Some boundary => boundary
  | None => []
  end.

(** Every statement the evaluation collects. *)
Definition applicable_statements (principal : Node) : list Statement :=
  identity_statements principal ++ boundary_statements principal.

(** Steps 1, 3 and 4 on one list of statements: the algorithm without
    a boundary, which is also how the boundary itself is evaluated. *)
Definition evaluate_statements (statements : list Statement)
    (action resource : string) (context : gmap string string) : AuthorizationDecision :=
  if existsb (deny_applies action resource context) statements
  then mkDecision ExplicitDeny false
  else match find (allow_applies action resource context) statements with
       | Some st => mkDecision ExplicitAllow (unmet_mfa_requirement context st)
       | None => mkDecision ImplicitDeny false
       end.

(** Modelled from the spec: evaluate_identity of section 4.2, steps 1
    to 4 in their order. *)
Definition evaluate_identity (principal : Node) (action resource : string)
    (context : gmap string string) : AuthorizationDecision :=
  if existsb (deny_applies action resource context) (applicable_statements principal)
  then mkDecision ExplicitDeny false
  else
    let allowed_by_boundary :=
      match permissions_boundary principal with
      | Some boundary =>
          is_ExplicitAllow
            (outcome (evaluate_statements boundary action resource context))
      | None => true
      end in
    if negb allowed_by_boundary then mkDecision ImplicitDeny false
    else match find (allow_applies action resource context)
                    (identity_statements principal) with
         | Some st => mkDecision ExplicitAllow (unmet_mfa_requirement context st)
         | None => mkDecision ImplicitDeny false
         end.

(** Modelled from the spec: query_interface's
    local_check_authorization_handling_mfa, the form in which the risk
    layer receives the decision: (authorized, needs MFA). *)
Definition local_check_authorization_handling_mfa (principal : Node)
    (action resource : string) (context : gmap string string) : bool * bool :=
  let decision := evaluate_identity principal action resource context in
  (is_ExplicitAllow (outcome decision), needs_second_factor decision).

End AuthorizationEngine.

(** ** The world a call runs in *)

(** The objects a call could change: the graph object the caller passed,
    what the functions of query_interface keep on its node objects between
    calls (their cache), the clock [datetime.now] reads and the regular
    files on disk.  The cache is kept apart from the fields of [Node],
    which nothing in find_risks.py assigns to. *)
Record World (C : Type) : Type := mkWorld {
  w_graph : Graph;
  w_cache : C;
  w_clock : datetime;
  w_files : gmap string string
}.
Arguments mkWorld {C} _ _ _ _.
Arguments w_graph {C} _.
Arguments w_cache {C} _.
Arguments w_clock {C} _.
Arguments w_files {C} _.

Definition Prog (C A : Type) : Type := World C -> Result A * World C.

#[export] Instance Prog_ret (C : Type) : MRet (Prog C) := fun _ a w => (Ok a, w).
#[export] Instance Prog_bind (C : Type) : MBind (Prog C) := fun _ _ f m w =>
  match m w with
  | (Ok a, w') => f a w'
  | (Raise e, w') => (Raise e, w')
  end.

Definition lift {C A} (r : Result A) : Prog C A := fun w => (r, w).

(** Reading the [graph] argument. *)
Definition the_graph {C} : Prog C Graph := fun w => (Ok (w_graph w), w).

(** [dt.datetime.now(dt.timezone.utc)] *)
Definition datetime_now {C} : Prog C datetime := fun w => (Ok (w_clock w), w).

Definition set_cache {C} (cache : C) (w : World C) : World C :=
  mkWorld (w_graph w) cache (w_clock w) (w_files w).

(** A call into query_interface: it answers or raises, and leaves in the
    cache what it writes there, whether it answers or raises. *)
Definition query {C A} (answer : Result A) (writes : C -> C) : Prog C A :=
  fun w => (answer, set_cache (writes (w_cache w)) w).

(** [for x in xs: if keep x: acc.append(x)] started from [acc], where the
    test calls into query_interface. *)
Fixpoint collectM {C A} (keep : A -> Prog C bool) (xs : list A) (acc : list A)
    : Prog C (list A) :=
  match xs with
  | [] => mret acc
  | x :: rest =>
      mbind (M := Prog C)
        (fun kept : bool => collectM keep rest (if kept then acc ++ [x] else acc))
        (keep x)
  end.

(** A Python object that is either a string or a function of no argument. *)
Inductive pyobj : Type :=
| PyStr (s : string)
| PyFunc (f : unit -> string).

(** [callee()] *)
Definition py_call (callee : pyobj) : Result string :=
  match callee with
  | PyFunc f => Ok (f tt)
  | PyStr _ => Raise (TypeError "'str' object is not callable")
  end.

(** The constants of the [os] module the code names. *)
Definition os_curdir : pyobj := PyStr ".".
Definition os_devnull : string := "/dev/null".

Definition os_path_isfile {C} (path : string) : Prog C bool :=
  fun w => (Ok (is_not_None (w_files w !! path)), w).

Definition set_file {C} (path content : string) (w : World C) : World C :=
  mkWorld (w_graph w) (w_cache w) (w_clock w) (<[path := content]> (w_files w)).

(** [open(path, 'w')]: the file is created or truncated; the null device
    is no regular file and keeps nothing. *)
Definition open_w {C} (path : string) : Prog C string :=
  fun w =>
    if String.eqb path os_devnull then (Ok path, w)
    else (Ok path, set_file path EmptyString w).

(** [f.write(content)], for a handle on [path]. *)
Definition file_write {C dict : Type} (path : string) (content : dict + string)
    : Prog C unit :=
  fun w =>
    match content with
    | inr text =>
        if String.eqb path os_devnull then (Ok tt, w)
        else (Ok tt, set_file path text w)
    | inl _ => (Raise (TypeError "write() argument must be str, not dict"), w)
    end.

(** [print(text)] on a terminal whose contents so far are [stdout];
    [print()] is [print EmptyString]. *)
Definition print (text : string) (stdout : string) : string :=
  stdout +:+ text +:+ nl.

(** ** util/boto_tools.py *)

Module BotoTools.

(** boto3 sessions and clients, as far as get_session handles them. *)
Record Session : Type := mkSession {
  profile_name : option string;
  aws_session_token : option string
}.

Record Client : Type := mkClient {
  service_name : string;
  client_session : option Session
}.

(** The calls into boto3; each of them may raise. *)
Record Boto3 : Type := mkBoto3 {
  Session_init : option string -> option string -> Result Session;
  boto3_client : string -> Result Client;
  Session_client : Session -> string -> Result Client;
  Client_assume_role : Client -> string -> string -> Result string;
  Client_get_caller_identity : Client -> Result unit
}.

(** Reading a local name: unbound names raise. *)
Definition read_local {A} (name : string) (binding : option A) : Result A :=
  match binding with
  | Some value => Ok value
  | None => Raise (UnboundLocalError name)
  end.

(** The branches bind [result] and, except the first, [stsclient]. *)
Definition get_session (boto3 : Boto3) (profile_arg role_arg : option string)
    : Result Session :=
  '(result, stsclient) ←
    match profile_arg with
    | Some profile =>
        result ← Session_init boto3 (Some profile) None;
        mret (Some result, None)
    | None =>
        match role_arg with
        | Some role =>
            stsclient ← boto3_client boto3 "sts";
            token ← Client_assume_role boto3 stsclient role "PMapper";
            result ← Session_init boto3 None (Some token);
            mret (Some result, Some stsclient)
        | None =>
            result ← Session_init boto3 None None;
            stsclient ← Session_client boto3 result "sts";
            mret (Some result, Some stsclient)
        end
    end;
  client ← read_local "stsclient" stsclient;
  _ ← Client_get_caller_identity boto3 client;
  read_local "result" result.

(** The names bound at the top level of boto_tools.py. *)
Definition module_names : list string :=
  ["Optional"; "boto3"; "get_session"; "assume_role"].

(** Reading a name that is no local of the function: it is looked up
    among the names of the module. *)
Definition read_global (name : string) : Result string :=
  if existsb (String.eqb name) module_names then Ok name
  else Raise (NameError name).

(** assume_role names [profile_arg], which is neither a parameter nor a
    local of it. *)
Definition assume_role (boto3 : Boto3) (role_arg : option string) : Result Session :=
  result ←
    match role_arg with
    | Some _ =>
        profile_arg ← read_global "profile_arg";
        Session_init boto3 (Some profile_arg) None
    | None => Session_init boto3 None None
    end;
  stsclient ← Session_client boto3 result "sts";
  _ ← Client_get_caller_identity boto3 stsclient;
  mret result.

(** A boto3 none of whose calls raises. *)
Definition never_raises (boto3 : Boto3) : Prop :=
  (forall profile token, returns (Session_init boto3 profile token) = true)
  /\ (forall service, returns (boto3_client boto3 service) = true)
  /\ (forall session service, returns (Session_client boto3 session service) = true)
  /\ (forall client role name, returns (Client_assume_role boto3 client role name) = true)
  /\ (forall client, returns (Client_get_caller_identity boto3 client) = true).

End BotoTools.

(** ** A small account to run the definitions on *)

Module Example.

Definition allow_all : Statement := mkStatement Allow ["*"] ["*"] [].

Definition deny_iam : Statement := mkStatement Deny ["iam:*"] ["*"] [].

Definition allow_assume_with_mfa : Statement :=
  mkStatement Allow ["sts:AssumeRole"] ["*"]
    [mkCondition ExactString AuthorizationEngine.mfa_key ["true"]].

Definition trust_lambda : Statement :=
  mkStatement Allow ["sts:AssumeRole"] ["*"] [].

(** An administrator with one access key. *)
Definition alice : Node :=
  mkNode "arn:aws:iam::000000000000:user/alice" [[allow_all]] [] None None true 1 None.

(** A user who may only assume roles, and only with MFA. *)
Definition bob : Node :=
  mkNode "arn:aws:iam::000000000000:user/bob" [[allow_assume_with_mfa]] [] None None
    false 1 None.

(** A user whose IAM calls are denied whatever else is allowed. *)
Definition carol : Node :=
  mkNode "arn:aws:iam::000000000000:user/carol" [[allow_all]; [deny_iam]] [] None None
    false 0 None.

(** An administrative role with an instance profile. *)
Definition ops : Node :=
  mkNode "arn:aws:iam::000000000000:role/ops" [[allow_all]] [] None
    (Some [trust_lambda]) true 0
    (Some "arn:aws:iam::000000000000:instance-profile/ops").

(** An administrator with an access key about whom the engine raises. *)
Definition mallory : Node :=
  mkNode "arn:aws:iam::000000000000:user/mallory" [[allow_all]] [] None None true 1 None.

(** An administrative user under a path that ends in ':role', so that the
    ARN contains ':role/'; being a user, it has no trust policy. *)
Definition erin : Node :=
  mkNode "arn:aws:iam::000000000000:user/team:role/erin" [[allow_all]] [] None None
    true 0 None.

Definition bob_to_ops : Edge :=
  mkEdge bob ops "AssumeRole" "can call sts:AssumeRole to access".

Definition graph : Graph :=
  mkGraph [alice; bob; carol; ops] [bob_to_ops]
    {[ "account_id" := "000000000000" ]}.

(** The same account, its metadata lost. *)
Definition graph_without_account : Graph :=
  mkGraph [alice; bob; carol; ops] [bob_to_ops] ∅.

Definition graph_with_mallory : Graph :=
  mkGraph [alice; mallory] [] {[ "account_id" := "000000000000" ]}.


(** The cache of the stand-ins: the queries made so far.  A world holds a
    graph with nothing cached yet, at 2019-11-01T00:00:00Z, and no file. *)
Definition world_of (g : Graph) : World (list string) := mkWorld g [] 1572566400 ∅.

Definition world : World (list string) := world_of graph.

(** Stand-ins for the imports of find_risks.py. *)
Definition can_privesc (g : Graph) (node : Node) : bool * list Edge :=
  if String.eqb (arn node) (arn bob) then (true, [bob_to_ops]) else (false, []).

Definition local_check_authorization_handling_mfa (node : Node)
    (action resource : string) (context : gmap string string) : Result (bool * bool) :=
  Ok (AuthorizationEngine.local_check_authorization_handling_mfa
        node action resource context).

(** The same engine, raising about [mallory]. *)
Definition local_check_raising (node : Node) (action resource : string)
    (context : gmap string string) : Result (bool * bool) :=
  if String.eqb (arn node) (arn mallory)
  then Raise (ValueError "malformed policy")
  else local_check_authorization_handling_mfa node action resource context.

Definition local_check_writes (node : Node) (action resource : string)
    (context : gmap string string) (cache : list string) : list string :=
  cache ++ [arn node +:+ " " +:+ action].

(** The trust policy is subscripted without a test for None. *)
Definition resource_policy_authorization (service account : string)
    (policy : option PolicyDocument) (action resource : string)
    (context : gmap string string) (must_match_principal : bool)
    : Result ResourcePolicyEvalResult :=
  match policy with
  | Some _ =>
      if String.eqb service "lambda.amazonaws.com" then Ok SERVICE_MATCH
      else Ok NO_MATCH
  | None => Raise (TypeError "'NoneType' object is not subscriptable")
  end.

Definition resource_policy_writes (service account : string)
    (policy : option PolicyDocument) (action resource : string)
    (context : gmap string string) (must_match_principal : bool)
    (cache : list string) : list string :=
  cache ++ [resource +:+ " " +:+ service].

(** Queries that keep nothing. *)
Definition local_check_silent (node : Node) (action resource : string)
    (context : gmap string string) (cache : list string) : list string := cache.

Definition resource_policy_silent (service account : string)
    (policy : option PolicyDocument) (action resource : string)
    (context : gmap string string) (must_match_principal : bool)
    (cache : list string) : list string := cache.

Definition get_account_id (arn : string) : Result string := Ok "000000000000".

Definition searchable_name (node : Node) : string := arn node.

Definition describe_edge (edge : Edge) : string :=
  searchable_name (source edge) +:+ " " +:+ reason edge +:+ " "
  +:+ searchable_name (destination edge).

Definition as_dictionary (report : Report.t) : list (string * string) :=
  [("account", Report.account report); ("source", Report.source report)].

Definition json_dumps (d : list (string * string)) (indent : Z) : string :=
  concat_lines (fun kv => fst kv +:+ ": " +:+ snd kv +:+ nl) d.

Definition os_path_abspath (path : string) : string := "/home/user/" +:+ path.

(** A boto3 whose calls all go through. *)
Definition boto3 : BotoTools.Boto3 :=
  BotoTools.mkBoto3
    (fun profile token => Ok (BotoTools.mkSession profile token))
    (fun service => Ok (BotoTools.mkClient service None))
    (fun session service => Ok (BotoTools.mkClient service (Some session)))
    (fun client role session_name => Ok "token")
    (fun client => Ok tt).

(** A boto3 that knows no profile: building a session for one raises. *)
Definition boto3_without_profiles : BotoTools.Boto3 :=
  BotoTools.mkBoto3
    (fun profile token =>
       match profile with
       | Some _ => Raise (ExternalError "ProfileNotFound")
       | None => Ok (BotoTools.mkSession profile token)
       end)
    (fun service => Ok (BotoTools.mkClient service None))
    (fun session service => Ok (BotoTools.mkClient service (Some session)))
    (fun client role session_name => Ok "token")
    (fun client => Ok tt).

(** A path search that claims an escalation without giving an edge. *)
Definition can_privesc_without_edges (g : Graph) (node : Node) : bool * list Edge :=
  (true, []).

(** The administrators of [graph] alone, without edges or metadata. *)
Definition graph_of_admins : Graph := mkGraph [alice; ops] [] ∅.

(** [graph] with its first two nodes exchanged. *)
Definition graph_reordered : Graph :=
  mkGraph [bob; alice; carol; ops] [bob_to_ops]
    {[ "account_id" := "000000000000" ]}.

(** An account whose administrators were not collected. *)
Definition graph_without_admins : Graph :=
  mkGraph [bob; carol] [] {[ "account_id" := "000000000000" ]}.

(** An account without principals. *)
Definition world_without_nodes : World (list string) :=
  world_of (mkGraph [] [bob_to_ops] {[ "account_id" := "000000000000" ]}).

Definition isoformat (t : datetime) : string := "2019-11-01T00:00:00+00:00".

End Example.

(** ** analysis/find_risks.py *)

Section FindRisks.

(** What find_risks.py imports from the rest of the package.  The two
    functions of query_interface and arns.get_account_id answer or raise;
    the answer of a query is a function of its arguments, and what the
    call writes to the cache of the nodes on the way is given beside it. *)
Variable Cache : Type.
Variable local_check_authorization_handling_mfa :
  Node -> string -> string -> gmap string string -> Result (bool * bool).
Variable local_check_writes :
  Node -> string -> string -> gmap string string -> Cache -> Cache.
Variable resource_policy_authorization :
  string -> string -> option PolicyDocument -> string -> string ->
  gmap string string -> bool -> Result ResourcePolicyEvalResult.
Variable resource_policy_writes :
  string -> string -> option PolicyDocument -> string -> string ->
  gmap string string -> bool -> Cache -> Cache.
Variable get_account_id : string -> Result string.
Variable can_privesc : Graph -> Node -> bool * list Edge.
Variable searchable_name : Node -> string.
Variable describe_edge : Edge -> string.
Variable version : string.

Definition bullet (node : Node) : string :=
  "* " +:+ searchable_name node +:+ nl.

(** *** gen_privesc_findings *)

Definition privesc_node_path_list (graph : Graph) : list (Node * list Edge) :=
  fold_left
    (fun node_path_list node =>
       let '(privesc_res, edge_list) := can_privesc graph node in
       if privesc_res then node_path_list ++ [(node, edge_list)]
       else node_path_list)
    (nodes graph) [].

Definition edge_line (edge : Edge) : string :=
  "   * " +:+ describe_edge edge +:+ nl.

Definition privesc_heading (node end_of_list : Node) : string :=
  "* " +:+ searchable_name node
  +:+ " can escalate privileges by accessing the administrative principal "
  +:+ searchable_name end_of_list +:+ ":" +:+ nl.

Fixpoint privesc_description_body
    (node_path_list : list (Node * list Edge)) (description_body : string)
    : Result string :=
  match node_path_list with
  | [] => Ok description_body
  | (node, edge_list) :: rest =>
      last_edge ← index_last edge_list;
      let end_of_list := destination last_edge in
      let description_body :=
        description_body +:+ privesc_heading node end_of_list in
      let description_body :=
        accumulate edge_line edge_list description_body in
      let description_body := description_body +:+ nl in
      privesc_description_body rest description_body
  end.

Definition privesc_preamble : string :=
  "In AWS, IAM Principals such as IAM Users or IAM Roles have their permissions defined "
  +:+ "using IAM Policies. These policies describe different actions, resources, and "
  +:+ "conditions where the principal can make a given API call to a service." +:+ nl +:+ nl
  +:+ "The following principals could escalate privileges:" +:+ nl +:+ nl.

Definition privesc_finding (plural : bool) (description_body : string) : Finding :=
  mkFinding
    ("IAM " +:+ (if plural then "Principals" else "Principal")
     +:+ " Can Escalate Privileges")
    "High"
    ("A lower-privilege IAM User or Role is able to gain administrative privileges. This could lead to the "
     +:+ "lower-privilege principal being used to compromise the account's resources.")
    (privesc_preamble +:+ description_body)
    ("Review the IAM Policies that are applicable to the affected IAM User(s) or Role(s). Either reduce the "
     +:+ "permissions of the administrative principal(s), or reduce the permissions of the principal(s) that can "
     +:+ "access the administrative principals.").

Definition gen_privesc_findings (graph : Graph) : Result (list Finding) :=
  let result := [] in
  let node_path_list := privesc_node_path_list graph in
  if (0 <? length node_path_list)%nat then
    description_body ← privesc_description_body node_path_list EmptyString;
    Ok (result ++ [privesc_finding (1 <? length node_path_list)%nat description_body])
  else Ok result.

(** *** _can_call_without_mfa and gen_mfa_actions_findings *)

Fixpoint _can_call_without_mfa (node : Node) (actions : list string)
    : Prog Cache bool :=
  match actions with
  | [] => mret false
  | action :: rest =>
      '(auth, needmfa) ←
        query (local_check_authorization_handling_mfa node action "*" ∅)
              (local_check_writes node action "*" ∅);
      if auth && negb needmfa then mret true
      else _can_call_without_mfa node rest
  end.

Definition sensitive_actions : list string :=
  ["iam:CreateUser"; "iam:CreateRole"; "iam:CreateGroup"; "iam:PutUserPolicy";
   "iam:PutRolePolicy"; "iam:PutGroupPolicy"; "iam:AttachUserPolicy";
   "iam:AttachRolePolicy"; "iam:AttachGroupPolicy"; "sts:AssumeRole"].

Definition mfa_affected_users (graph : Graph) : Prog Cache (list Node) :=
  collectM
    (fun node =>
       if contains ":user/" (arn node) && is_admin node && (access_keys node >? 0)
       then _can_call_without_mfa node sensitive_actions
       else mret false)
    (nodes graph) [].

Definition mfa_preamble : string :=
  "In AWS, IAM Users can be configured to use an MFA device. When an IAM User has MFA "
  +:+ "enabled, they are required to provide the second factor of authentication when they "
  +:+ "log in to the AWS Console. However, unless there is a specific IAM policy attached "
  +:+ "to the user, they will not need to provide a second factor of authentication when "
  +:+ "making API calls." +:+ nl +:+ nl
  +:+ "The following administrative IAM Users have at least one set of "
  +:+ "access keys, and can call sensitive actions to alter permissions or add users "
  +:+ "without using a second factor of authentication:" +:+ nl +:+ nl.

Definition mfa_finding (plural : bool) (description_body : string) : Finding :=
  mkFinding
    ("Administrative IAM " +:+ (if plural then "Users" else "User")
     +:+ " Can Call Sensitive Actions Without MFA")
    "Medium"
    ("An adminstrative IAM User is able to call sensitive actions, such as creating more principals or "
     +:+ "modifying permissions, without using MFA.")
    (mfa_preamble +:+ description_body)
    "Implement and attach an IAM Policy to the noted user(s) that rejects requests when MFA is not used.".

Definition gen_mfa_actions_findings (graph : Graph) : Prog Cache (list Finding) :=
  let result := [] in
  affected_users ← mfa_affected_users graph;
  mret (if (0 <? length affected_users)%nat then
          let description_body := accumulate bullet affected_users EmptyString in
          result ++ [mfa_finding (1 <? length affected_users)%nat description_body]
        else result).

(** *** gen_overprivileged_instance_profile_findings *)

Definition instance_profile_affected_roles (graph : Graph) : list Node :=
  collect
    (fun node =>
       contains ":role/" (arn node) && is_admin node
       && is_not_None (instance_profile node))
    (nodes graph) [].

Definition instance_profile_preamble : string :=
  "In AWS, EC2 instances can be given an instance profile. These instance profiles "
  +:+ "are associated with an IAM Role, and grants access to the permissions of the IAM "
  +:+ "Role. Because EC2 instances are at a higher risk of exposure and compromise, both "
  +:+ "to external attackers and authorized users in the AWS account, they should not have "
  +:+ "access to administrative privileges. The following IAM Roles have administrative "
  +:+ "permissions and are associated with an instance profile:" +:+ nl +:+ nl.

Definition instance_profile_finding (plural : bool) (description_body : string) : Finding :=
  mkFinding
    ("Instance " +:+ (if plural then "Profiles Have" else "Profile Has")
     +:+ " Administrator Privileges")
    "High"
    ("If an instance with the noted instance profile(s) is compromised, then the AWS account as a whole is at "
     +:+ "risk of compromise.")
    (instance_profile_preamble +:+ description_body)
    "Reduce the scope of permissions attached to the noted instance profile(s).".

Definition gen_overprivileged_instance_profile_findings (graph : Graph) : list Finding :=
  let result := [] in
  let affected_roles := instance_profile_affected_roles graph in
  if (0 <? length affected_roles)%nat then
    let description_body := accumulate bullet affected_roles EmptyString in
    result ++ [instance_profile_finding (1 <? length affected_roles)%nat description_body]
  else result.

(** *** gen_overprivileged_function_findings *)

(** The trust-policy query both service findings make for one role; the
    account identifier is computed before the call. *)
Definition service_can_assume (service : string) (node : Node) : Prog Cache bool :=
  account ← lift (get_account_id (arn node));
  answer ←
    query (resource_policy_authorization service account (trust_policy node)
             "sts:AssumeRole" (arn node) ∅ false)
          (resource_policy_writes service account (trust_policy node)
             "sts:AssumeRole" (arn node) ∅ false);
  mret (ResourcePolicyEvalResult_eqb answer SERVICE_MATCH).

Definition function_affected_roles (graph : Graph) : Prog Cache (list Node) :=
  collectM
    (fun node =>
       if contains ":role/" (arn node) && is_admin node
       then service_can_assume "lambda.amazonaws.com" node
       else mret false)
    (nodes graph) [].

Definition function_preamble : string :=
  "In AWS, Lambda functions can be assigned an IAM Role to use during execution. These "
  +:+ "IAM Roles give the function access to call the AWS API with the permissions of the "
  +:+ "IAM Role, depending on the policies attached to it. If the Lambda function can be "
  +:+ "compromised, and the attacker can alter the code it executes, the attacker could "
  +:+ "make AWS API calls with the IAM Role's permissions. The following IAM Roles have "
  +:+ "administrative privileges, and can be passed to Lambda functions:" +:+ nl +:+ nl.

Definition function_finding (plural : bool) (description_body : string) : Finding :=
  mkFinding
    (if plural
     then "IAM Roles Available to Lambda Functions Have Administrative Privileges"
     else "IAM Role Available to Lambda Functions Has Administrative Privileges")
    "Medium"
    ("If an attacker can inject code or commands into the function, or if a lower-privileged principal can "
     +:+ "alter the function, the AWS account as a whole could be compromised.")
    (function_preamble +:+ description_body)
    "Reduce the scope of permissions attached to the noted IAM Role(s).".

Definition gen_overprivileged_function_findings (graph : Graph)
    : Prog Cache (list Finding) :=
  let result := [] in
  affected_roles ← function_affected_roles graph;
  mret (if (0 <? length affected_roles)%nat then
          let description_body := accumulate bullet affected_roles EmptyString in
          result ++ [function_finding (1 <? length affected_roles)%nat description_body]
        else result).

(** *** gen_overprivileged_stack_findings *)

Definition stack_affected_roles (graph : Graph) : Prog Cache (list Node) :=
  collectM
    (fun node =>
       if contains ":role/" (arn node) && is_admin node
       then service_can_assume "cloudformation.amazonaws.com" node
       else mret false)
    (nodes graph) [].

Definition stack_preamble : string :=
  "In AWS, CloudFormation stacks can be given an IAM Role. When a stack has an IAM "
  +:+ "Role, it can use that IAM Role to make AWS API calls to create the resources "
  +:+ "defined in the template for that stack. If the IAM Role has administrator access "
  +:+ "to the account, and an attacker is able to make the right CloudFormation API calls, "
  +:+ "they would be able to use the IAM Role to escalate privileges and compromise the "
  +:+ "account as a whole. The following IAM Roles can be used in CloudFormation and "
  +:+ "have administrative privileges:" +:+ nl +:+ nl.

Definition stack_finding (plural : bool) (description_body : string) : Finding :=
  mkFinding
    (if plural
     then "IAM Roles Available to CloudFormation Stacks Have Administrative Privileges"
     else "IAM Role Available to CloudFormation Stacks Has Administrative Privileges")
    "Low"
    ("If an attacker has the right permissions in the AWS Account, they can grant themselves adminstrative "
     +:+ "access to the account to compromise the account.")
    (stack_preamble +:+ description_body)
    "Reduce the scope of permissions attached to the noted IAM Role(s).".

Definition gen_overprivileged_stack_findings (graph : Graph)
    : Prog Cache (list Finding) :=
  let result := [] in
  affected_roles ← stack_affected_roles graph;
  mret (if (0 <? length affected_roles)%nat then
          let description_body := accumulate bullet affected_roles EmptyString in
          result ++ [stack_finding (1 <? length affected_roles)%nat description_body]
        else result).

(** *** gen_all_findings *)

Definition gen_all_findings (graph : Graph) : Prog Cache (list Finding) :=
  let result := [] in
  privesc ← lift (gen_privesc_findings graph);
  let result := result ++ privesc in
  mfa ← gen_mfa_actions_findings graph;
  let result := result ++ mfa in
  function ← gen_overprivileged_function_findings graph;
  let result := result ++ function in
  let result := result ++ gen_overprivileged_instance_profile_findings graph in
  stack ← gen_overprivileged_stack_findings graph;
  let result := result ++ stack in
  mret result.

(** *** gen_report *)

Definition report_source : string :=
  "Findings identified using Principal Mapper (" +:+ version
  +:+ ") from NCC Group: https://github.com/nccgroup/PMapper".

Definition gen_report : Prog Cache Report.t :=
  graph ← the_graph;
  findings ← gen_all_findings graph;
  account ← lift (getitem (metadata graph) "account_id");
  now ← datetime_now;
  mret (Report.make account now findings report_source).

(** *** gen_findings_to_file *)

(** Report.as_dictionary, json.dumps and os.path.abspath. *)
Variable dict : Type.
Variable as_dictionary : Report.t -> dict.
Variable json_dumps : dict -> Z -> string.
Variable os_path_abspath : string -> string.

Definition gen_findings_to_file (formatting file : string) : Prog Cache unit :=
  report ← gen_report;
  let content := as_dictionary report in
  curdir ← lift (py_call os_curdir);
  let path := os_path_abspath (curdir +:+ file) in
  isfile ← os_path_isfile path;
  let path := if negb isfile then os_devnull else path in
  let content : dict + string :=
    if String.eqb formatting "json" then inr (json_dumps content 4)
    else inl content in
  f ← open_w path;
  file_write f content.

(** *** print_report *)

(** datetime.isoformat. *)
Variable isoformat : datetime -> string.

Definition rule : string :=
  "----------------------------------------------------------------".

Definition finding_block (finding : Finding) : string :=
  "## " +:+ title finding +:+ nl +:+ nl
  +:+ "### Severity" +:+ nl +:+ nl +:+ severity finding +:+ nl +:+ nl
  +:+ "### Impact" +:+ nl +:+ nl +:+ impact finding +:+ nl +:+ nl
  +:+ "### Description" +:+ nl +:+ nl +:+ description finding +:+ nl +:+ nl
  +:+ "### Recommendation" +:+ nl +:+ nl +:+ recommendation finding +:+ nl +:+ nl.

Definition print_report (report : Report.t) (stdout : string) : string :=
  let stdout := print rule stdout in
  let stdout := print "# Principal Mapper Findings" stdout in
  let stdout := print EmptyString stdout in
  let stdout :=
    print ("Findings identified in AWS account " +:+ Report.account report) stdout in
  let stdout := print EmptyString stdout in
  let stdout :=
    print ("Date and Time: " +:+ isoformat (Report.date_and_time report)) stdout in
  let stdout := print EmptyString stdout in
  let stdout := print (Report.source report) stdout in
  let stdout :=
    if (length (Report.findings report) =? 0)%nat then
      let stdout := print EmptyString stdout in
      let stdout := print "None found." stdout in
      print EmptyString stdout
    else
      fold_left (fun stdout finding => print (finding_block finding) stdout)
        (Report.findings report) stdout in
  let stdout := print EmptyString stdout in
  print rule stdout.

(** *** gen_findings_and_print *)

Definition gen_findings_and_print (formatting : string) (w : World Cache)
    (stdout : string) : Result unit * World Cache * string :=
  match gen_report w with
  | (Raise e, w') => (Raise e, w', stdout)
  | (Ok report, w') =>
      if String.eqb formatting "text"
      then (Ok tt, w', print_report report stdout)
      else (Ok tt, w', print (json_dumps (as_dictionary report) 4) stdout)
  end.

(** *** What the printing and the findings amount to *)

(** The lines print_report writes before and after the findings. *)
Definition report_header (report : Report.t) : string :=
  rule +:+ nl
  +:+ "# Principal Mapper Findings" +:+ nl
  +:+ nl
  +:+ "Findings identified in AWS account " +:+ Report.account report +:+ nl
  +:+ nl
  +:+ "Date and Time: " +:+ isoformat (Report.date_and_time report) +:+ nl
  +:+ nl
  +:+ Report.source report +:+ nl.

Definition report_footer : string := nl +:+ rule +:+ nl.

Definition report_body (findings : list Finding) : string :=
  match findings with
  | [] => nl +:+ "None found." +:+ nl +:+ nl
  | _ :: _ => concat_lines (fun finding => finding_block finding +:+ nl) findings
  end.

(** The guards of the loops, before any query is made. *)
Definition mfa_guard (node : Node) : bool :=
  contains ":user/" (arn node) && is_admin node && (access_keys node >? 0).

Definition role_guard (node : Node) : bool :=
  contains ":role/" (arn node) && is_admin node.

Definition instance_profile_test (node : Node) : bool :=
  contains ":role/" (arn node) && is_admin node
  && is_not_None (instance_profile node).

(** What _can_call_without_mfa answers, the cache left aside. *)
Fixpoint can_call_answer (node : Node) (actions : list string) : Result bool :=
  match actions with
  | [] => Ok false
  | action :: rest =>
      match local_check_authorization_handling_mfa node action "*" ∅ with
      | Ok (auth, needmfa) =>
          if auth && negb needmfa then Ok true else can_call_answer node rest
      | Raise e => Raise e
      end
  end.

(** What the trust-policy query for a service answers about a node. *)
Definition trust_answer (service : string) (node : Node)
    : Result ResourcePolicyEvalResult :=
  match get_account_id (arn node) with
  | Ok account =>
      resource_policy_authorization service account (trust_policy node)
        "sts:AssumeRole" (arn node) ∅ false
  | Raise e => Raise e
  end.

(** Whether a loop keeps a node, as far as the answers decide it. *)
Definition mfa_keep (node : Node) : Result bool :=
  if mfa_guard node then can_call_answer node sensitive_actions else Ok false.

Definition service_keep (service : string) (node : Node) : Result bool :=
  if role_guard node then
    match trust_answer service node with
    | Ok answer => Ok (ResourcePolicyEvalResult_eqb answer SERVICE_MATCH)
    | Raise e => Raise e
    end
  else Ok false.

(** The loop of [collectM] over tests that answer or raise. *)
Fixpoint collectR {A} (keep : A -> Result bool) (xs : list A) (acc : list A)
    : Result (list A) :=
  match xs with
  | [] => Ok acc
  | x :: rest =>
      match keep x with
      | Ok kept => collectR keep rest (if kept then acc ++ [x] else acc)
      | Raise e => Raise e
      end
  end.

Definition kept {A} (keep : A -> Result bool) (x : A) : bool :=
  match keep x with
  | Ok true => true
  | _ => false
  end.

(** What a generator returns once its loop has returned the affected
    principals. *)
Definition about (mk : bool -> string -> Finding) (affected : list Node)
    : list Finding :=
  if (0 <? length affected)%nat
  then [] ++ [mk (1 <? length affected)%nat (accumulate bullet affected EmptyString)]
  else [].

(** The query answers, and the answer does not authorize without MFA. *)
Definition refuses (node : Node) (action : string) : Prop :=
  exists auth needmfa,
    local_check_authorization_handling_mfa node action "*" ∅ = Ok (auth, needmfa)
    /\ auth && negb needmfa = false.

(** A program that assigns neither to the graph nor to the clock, writes
    no file, and keeps the property [I] of the cache. *)
Definition frames {A} (I : Cache -> Prop) (m : Prog Cache A) : Prop :=
  forall w, I (w_cache w) ->
    I (w_cache (snd (m w)))
    /\ w_graph (snd (m w)) = w_graph w
    /\ w_clock (snd (m w)) = w_clock w
    /\ w_files (snd (m w)) = w_files w.

(** The writes of the queries find_risks.py makes about a graph keep [I]. *)
Definition queries_keep (I : Cache -> Prop) (graph : Graph) : Prop :=
  (forall node action cache,
     In node (nodes graph) -> mfa_guard node = true ->
     In action sensitive_actions -> I cache ->
     I (local_check_writes node action "*" ∅ cache))
  /\ (forall node service account cache,
     In node (nodes graph) -> role_guard node = true ->
     In service ["lambda.amazonaws.com"; "cloudformation.amazonaws.com"] ->
     get_account_id (arn node) = Ok account -> I cache ->
     I (resource_policy_writes service account (trust_policy node)
          "sts:AssumeRole" (arn node) ∅ false cache)).

(** Some escalating node comes without an edge. *)
Definition some_path_empty (graph : Graph) : Prop :=
  exists node, In node (nodes graph)
    /\ fst (can_privesc graph node) = true /\ snd (can_privesc graph node) = [].

(** Deciding that one explicit list is a subsequence of another. *)
Ltac subsequence :=
  repeat first [apply sublist_nil | apply sublist_skip | apply sublist_cons].

(** *** The findings, stated without loops *)

(** The nodes can_privesc finds an escalation path for. *)
Definition escalating_nodes (graph : Graph) : list Node :=
  List.filter (fun node => fst (can_privesc graph node)) (nodes graph).

(** can_privesc answers every escalating node with at least one edge. *)
Definition paths_nonempty (graph : Graph) : Prop :=
  forall node, In node (nodes graph) ->
    fst (can_privesc graph node) = true -> snd (can_privesc graph node) <> [].

(** The paragraph of the description for one escalating node: it names
    the destination of the last edge of the node's path. *)
Definition privesc_entry (graph : Graph) (node : Node) : string :=
  let edge_list := snd (can_privesc graph node) in
  match last edge_list with
  | Some last_edge =>
      privesc_heading node (destination last_edge)
      +:+ concat_lines edge_line edge_list +:+ nl
  | None => EmptyString
  end.

Definition known_severity (f : Finding) : Prop :=
  In (severity f) ["Low"; "Medium"; "High"].

(** ** Properties *)

Lemma append_assoc (a b c : string) : (a +:+ b) +:+ c = a +:+ (b +:+ c).
Proof.
  induction a as [|ch a IH]; [reflexivity|].
  change (String ch ((a +:+ b) +:+ c) = String ch (a +:+ (b +:+ c))).
  now rewrite IH.
Qed.

Lemma append_empty_r (a : string) : a +:+ EmptyString = a.
Proof.
  induction a as [|ch a IH]; [reflexivity|].
  change (String ch (a +:+ EmptyString) = String ch a).
  now rewrite IH.
Qed.

Lemma collect_acc {A} (keep : A -> bool) (xs acc : list A) :
  collect keep xs acc = acc ++ List.filter keep xs.
Proof.
  unfold collect. revert acc.
  induction xs as [|x xs IH]; intros acc; simpl.
  - now rewrite app_nil_r.
  - rewrite IH. destruct (keep x); [|reflexivity].
    now rewrite <- app_assoc.
Qed.

Lemma collect_filter {A} (keep : A -> bool) (xs : list A) :
  collect keep xs [] = List.filter keep xs.
Proof. exact (collect_acc keep xs []). Qed.

Lemma accumulate_acc {A} (line : A -> string) (xs : list A) (body : string) :
  accumulate line xs body = body +:+ concat_lines line xs.
Proof.
  unfold accumulate. revert body.
  induction xs as [|x xs IH]; intros body; simpl.
  - now rewrite append_empty_r.
  - rewrite IH. apply append_assoc.
Qed.

Lemma accumulate_lines {A} (line : A -> string) (xs : list A) :
  accumulate line xs EmptyString = concat_lines line xs.
Proof. exact (accumulate_acc line xs EmptyString). Qed.

Lemma ResourcePolicyEvalResult_eqb_eq a b :
  ResourcePolicyEvalResult_eqb a b = true <-> a = b.
Proof. destruct a, b; simpl; split; congruence. Qed.

Lemma finding_list_shape (mk : bool -> string -> Finding) (affected : list Node) :
  (if (0 <? length affected)%nat
   then [] ++ [mk (1 <? length affected)%nat (accumulate bullet affected EmptyString)]
   else [])
  = match affected with
    | [] => []
    | _ :: _ => [mk (1 <? length affected)%nat (concat_lines bullet affected)]
    end.
Proof.
  destruct affected as [|node rest]; [reflexivity|].
  rewrite accumulate_lines. reflexivity.
Qed.

Lemma and_nest (A B C : Prop) : (A /\ B) /\ C <-> A /\ B /\ C.
Proof.
  split.
  - intros [[HA HB] HC]. exact (conj HA (conj HB HC)).
  - intros [HA [HB HC]]. exact (conj (conj HA HB) HC).
Qed.

Lemma andb3_true (a b c : bool) :
  a && b && c = true <-> a = true /\ b = true /\ c = true.
Proof. rewrite !andb_true_iff. apply and_nest. Qed.

Lemma is_not_None_true {A} (o : option A) : is_not_None o = true <-> o <> None.
Proof. destruct o; simpl; split; congruence. Qed.

Lemma finding_list_cases (mk : bool -> string -> Finding) (affected : list Node) :
  let l := if (0 <? length affected)%nat
           then [] ++ [mk (1 <? length affected)%nat
                          (accumulate bullet affected EmptyString)]
           else [] in
  l = [] \/ exists plural body, l = [mk plural body].
Proof.
  simpl. destruct (0 <? length affected)%nat; [right; eauto | left; reflexivity].
Qed.

Lemma length_le_1_cases {A} (l : list A) (P : A -> Prop) :
  (l = [] \/ exists x, l = [x] /\ P x) -> (length l <= 1)%nat /\ Forall P l.
Proof.
  intros [-> | (x & -> & Hx)]; simpl; split; auto.
Qed.

Lemma generator_bound (mk : bool -> string -> Finding) (sev : string)
    (affected : list Node) :
  (forall plural body, severity (mk plural body) = sev) ->
  let l := if (0 <? length affected)%nat
           then [] ++ [mk (1 <? length affected)%nat
                          (accumulate bullet affected EmptyString)]
           else [] in
  (length l <= 1)%nat /\ Forall (fun f => severity f = sev) l.
Proof.
  intros Hsev l. apply length_le_1_cases.
  destruct (finding_list_cases mk affected) as [Hnil | (plural & body & Hone)].
  - left. exact Hnil.
  - right. exists (mk plural body). split; [exact Hone | apply Hsev].
Qed.

Lemma filter_within {A} (test within : A -> bool) (l : list A) :
  (forall x, test x = true -> within x = true) ->
  List.filter test (List.filter within l) = List.filter test l.
Proof.
  intros Himp. induction l as [|x l IH]; [reflexivity|]. cbn.
  destruct (within x) eqn:Hw; cbn.
  - now rewrite IH.
  - rewrite IH. destruct (test x) eqn:Ht; [|reflexivity].
    apply Himp in Ht. congruence.
Qed.

Lemma filter_none {A} (test : A -> bool) (l : list A) :
  (forall x, In x l -> test x = false) -> List.filter test l = [].
Proof.
  induction l as [|x l IH]; intros Hall; [reflexivity|]. cbn.
  rewrite (Hall x (or_introl eq_refl)). apply IH.
  intros y Hy. apply Hall. right. exact Hy.
Qed.

Lemma filter_permutation {A} (test : A -> bool) (l1 l2 : list A) :
  Permutation l1 l2 -> Permutation (List.filter test l1) (List.filter test l2).
Proof.
  induction 1 as [|x l1 l2 _ IH|x y l|l1 l2 l3 _ IH1 _ IH2]; cbn.
  - constructor.
  - destruct (test x); [constructor|]; exact IH.
  - destruct (test x), (test y); try reflexivity. constructor.
  - etransitivity; eassumption.
Qed.

Lemma finding_list_titles (mk : bool -> string -> Finding) (affected : list Node)
    (f : Finding) :
  In f (if (0 <? length affected)%nat
        then [] ++ [mk (1 <? length affected)%nat
                       (accumulate bullet affected EmptyString)]
        else []) ->
  exists body, f = mk (1 <? length affected)%nat body.
Proof.
  rewrite finding_list_shape. destruct affected as [|node rest]; [intros []|].
  intros [<- | []]. eexists. reflexivity.
Qed.

Lemma finding_list_permutation (mk : bool -> string -> Finding)
    (l1 l2 : list Node) :
  Permutation l1 l2 ->
  (forall plural body1 body2, title (mk plural body1) = title (mk plural body2)) ->
  map title
    (if (0 <? length l1)%nat
     then [] ++ [mk (1 <? length l1)%nat (accumulate bullet l1 EmptyString)]
     else [])
  = map title
      (if (0 <? length l2)%nat
       then [] ++ [mk (1 <? length l2)%nat (accumulate bullet l2 EmptyString)]
       else []).
Proof.
  intros Hperm Htitle. rewrite (Permutation_length Hperm).
  destruct (0 <? length l2)%nat; [|reflexivity].
  cbn. f_equal. apply Htitle.
Qed.

Lemma privesc_node_path_list_acc (graph : Graph) (l : list Node)
    (acc : list (Node * list Edge)) :
  fold_left
    (fun node_path_list node =>
       let '(privesc_res, edge_list) := can_privesc graph node in
       if privesc_res then node_path_list ++ [(node, edge_list)]
       else node_path_list) l acc
  = acc ++ map (fun node => (node, snd (can_privesc graph node)))
             (List.filter (fun node => fst (can_privesc graph node)) l).
Proof.
  revert acc. induction l as [|node l IH]; intros acc; simpl.
  - now rewrite app_nil_r.
  - rewrite IH. destruct (can_privesc graph node) as [[|] edge_list] eqn:Hq.
    + cbn. rewrite ?Hq. cbn. now rewrite <- app_assoc.
    + cbn. rewrite ?Hq. reflexivity.
Qed.

Lemma privesc_node_path_list_escalating (graph : Graph) :
  privesc_node_path_list graph
  = map (fun node => (node, snd (can_privesc graph node))) (escalating_nodes graph).
Proof. exact (privesc_node_path_list_acc graph (nodes graph) []). Qed.

Lemma escalating_nodes_paths (graph : Graph) :
  paths_nonempty graph ->
  Forall (fun node => snd (can_privesc graph node) <> []) (escalating_nodes graph).
Proof.
  intros Hpaths. apply List.Forall_forall. intros node Hin.
  apply filter_In in Hin as [Hin Hesc]. exact (Hpaths node Hin Hesc).
Qed.

Lemma privesc_description_body_ok (graph : Graph) (l : list Node) (body : string) :
  Forall (fun node => snd (can_privesc graph node) <> []) l ->
  privesc_description_body
    (map (fun node => (node, snd (can_privesc graph node))) l) body
  = Ok (body +:+ concat_lines (privesc_entry graph) l).
Proof.
  intros Hall. revert body.
  induction Hall as [|node l Hne _ IH]; intros body; simpl.
  - now rewrite append_empty_r.
  - unfold index_last, privesc_entry.
    destruct (last (snd (can_privesc graph node))) as [last_edge|] eqn:Hlast.
    + simpl. rewrite IH, accumulate_acc. now rewrite !append_assoc.
    + apply last_None in Hlast. contradiction.
Qed.

(** Without an edge to index, the loop over the paths raises. *)
Lemma privesc_description_body_raises (graph : Graph) (l : list Node) (body : string) :
  Exists (fun node => snd (can_privesc graph node) = []) l ->
  privesc_description_body
    (map (fun node => (node, snd (can_privesc graph node))) l) body
  = Raise (IndexError "list index out of range").
Proof.
  revert body. induction l as [|node l IH]; intros body Hex.
  - inversion Hex.
  - simpl. unfold index_last.
    destruct (last (snd (can_privesc graph node))) as [last_edge|] eqn:Hlast.
    + simpl. apply IH. inversion Hex as [? ? Hnil|]; subst; [|assumption].
      rewrite Hnil in Hlast. discriminate.
    + reflexivity.
Qed.

Lemma gen_privesc_findings_ok (graph : Graph) :
  paths_nonempty graph ->
  gen_privesc_findings graph
  = Ok match escalating_nodes graph with
       | [] => []
       | _ :: _ =>
           [privesc_finding (1 <? length (escalating_nodes graph))%nat
              (concat_lines (privesc_entry graph) (escalating_nodes graph))]
       end.
Proof.
  intros Hpaths. unfold gen_privesc_findings.
  rewrite privesc_node_path_list_escalating, length_map.
  rewrite (privesc_description_body_ok graph _ EmptyString
             (escalating_nodes_paths graph Hpaths)).
  destruct (escalating_nodes graph); reflexivity.
Qed.

Lemma gen_privesc_findings_shape (graph : Graph) (l : list Finding) :
  gen_privesc_findings graph = Ok l ->
  l = [] \/ exists plural body, l = [privesc_finding plural body].
Proof.
  unfold gen_privesc_findings.
  destruct (0 <? length (privesc_node_path_list graph))%nat.
  - destruct (privesc_description_body _ _) as [body|e]; simpl; intros H.
    + injection H as <-. right. eauto.
    + discriminate.
  - intros H. injection H as <-. left. reflexivity.
Qed.

(** C4: when can_privesc finds a path for at least one node,
    gen_privesc_findings returns exactly one finding, of severity 'High',
    and the empty list otherwise; the description has one paragraph per
    escalating node, which names the destination of the last edge of the
    node's path as the administrative principal reached. *)
Theorem C4_privesc_findings (graph : Graph) :
  paths_nonempty graph ->
  let escalating := escalating_nodes graph in
  (forall node, In node escalating <->
     In node (nodes graph) /\ fst (can_privesc graph node) = true)
  /\ (escalating = [] -> gen_privesc_findings graph = Ok [])
  /\ (escalating <> [] ->
      exists f, gen_privesc_findings graph = Ok [f]
        /\ severity f = "High"
        /\ description f
           = privesc_preamble +:+ concat_lines (privesc_entry graph) escalating)
  /\ (forall node, In node escalating ->
      exists path last_edge,
        snd (can_privesc graph node) = path ++ [last_edge]
        /\ privesc_entry graph node
           = "* " +:+ searchable_name node
             +:+ " can escalate privileges by accessing the administrative principal "
             +:+ searchable_name (destination last_edge) +:+ ":" +:+ nl
             +:+ concat_lines edge_line (path ++ [last_edge]) +:+ nl).
Proof.
  intros Hpaths escalating.
  pose proof (gen_privesc_findings_ok graph Hpaths) as Hgen.
  fold escalating in Hgen.
  split; [|split; [|split]].
  - intros node. subst escalating. unfold escalating_nodes.
    now rewrite filter_In.
  - intros Hnil. rewrite Hgen, Hnil. reflexivity.
  - intros Hne. rewrite Hgen. destruct escalating as [|n rest]; [congruence|].
    eexists. split; [reflexivity|]. split; reflexivity.
  - intros node Hin.
    pose proof (escalating_nodes_paths graph Hpaths) as Hall.
    rewrite List.Forall_forall in Hall. specialize (Hall node Hin).
    unfold privesc_entry.
    destruct (snd (can_privesc graph node)) as [|e el] using rev_ind;
      [congruence|].
    exists el, e. split; [reflexivity|].
    rewrite last_snoc. unfold privesc_heading. now rewrite !append_assoc.
Qed.

Lemma paths_cases_on (graph : Graph) (l : list Node) :
  Forall (fun node => fst (can_privesc graph node) = true ->
                      snd (can_privesc graph node) <> []) l
  \/ Exists (fun node => fst (can_privesc graph node) = true
                         /\ snd (can_privesc graph node) = []) l.
Proof.
  induction l as [|node l [IH|IH]].
  - left. constructor.
  - destruct (fst (can_privesc graph node)) eqn:Hesc.
    + destruct (snd (can_privesc graph node)) as [|edge rest] eqn:Hpath.
      * right. left. split; assumption.
      * left. constructor; [intros _; rewrite Hpath; discriminate | exact IH].
    + left. constructor; [rewrite Hesc; discriminate | exact IH].
  - right. right. exact IH.
Qed.

Lemma paths_cases (graph : Graph) : paths_nonempty graph \/ some_path_empty graph.
Proof.
  destruct (paths_cases_on graph (nodes graph)) as [Hall|Hex].
  - left. intros node Hin. rewrite List.Forall_forall in Hall. exact (Hall node Hin).
  - right. apply List.Exists_exists in Hex as (node & Hin & Hesc & Hnil).
    exists node. auto.
Qed.

Lemma gen_privesc_findings_raises (graph : Graph) :
  some_path_empty graph ->
  gen_privesc_findings graph = Raise (IndexError "list index out of range").
Proof.
  intros (node & Hin & Hesc & Hnil).
  assert (Hmem : In node (escalating_nodes graph)).
  { apply filter_In. split; assumption. }
  unfold gen_privesc_findings.
  rewrite privesc_node_path_list_escalating, length_map.
  rewrite (privesc_description_body_raises graph (escalating_nodes graph) EmptyString).
  - destruct (escalating_nodes graph); [contradiction | reflexivity].
  - apply List.Exists_exists. exists node. split; assumption.
Qed.

(** X1: gen_privesc_findings raises exactly when can_privesc reports an
    escalation for some node of the graph together with an empty edge
    list, and the exception is then the IndexError of edge_list[-1]. *)
Theorem privesc_raises_iff_empty_path (graph : Graph) (e : exn) :
  gen_privesc_findings graph = Raise e <->
  e = IndexError "list index out of range" /\ some_path_empty graph.
Proof.
  split.
  - intros Hraise. destruct (paths_cases graph) as [Hpaths|Hempty].
    + rewrite (gen_privesc_findings_ok graph Hpaths) in Hraise. discriminate.
    + rewrite (gen_privesc_findings_raises graph Hempty) in Hraise.
      injection Hraise as <-. split; [reflexivity | exact Hempty].
  - intros [-> Hempty]. exact (gen_privesc_findings_raises graph Hempty).
Qed.

Lemma gen_privesc_findings_titles (graph : Graph) (l : list Finding) (f : Finding) :
  gen_privesc_findings graph = Ok l -> In f l ->
  exists body, f = privesc_finding (1 <? length (escalating_nodes graph))%nat body.
Proof.
  unfold gen_privesc_findings.
  rewrite privesc_node_path_list_escalating, length_map.
  destruct (0 <? length (escalating_nodes graph))%nat.
  - destruct (privesc_description_body _ _) as [body|e]; simpl; [|discriminate].
    intros H. injection H as <-. intros [<- | []]. eexists. reflexivity.
  - intros H. injection H as <-. intros [].
Qed.


(** *** Running the programs *)

Lemma set_cache_same (w : World Cache) : set_cache (w_cache w) w = w.
Proof. destruct w; reflexivity. Qed.

Lemma bind_run {A B} (m : Prog Cache A) (k : A -> Prog Cache B) (w : World Cache) :
  (m ≫= k) w
  = match m w with
    | (Ok a, w') => k a w'
    | (Raise e, w') => (Raise e, w')
    end.
Proof. reflexivity. Qed.

Lemma bind_ret_fst {A B} (m : Prog Cache A) (g : A -> B) (w : World Cache) :
  fst ((m ≫= fun a => mret (g a)) w)
  = match fst (m w) with
    | Ok a => Ok (g a)
    | Raise e => Raise e
    end.
Proof. rewrite bind_run. destruct (m w) as [[a|e] w']; reflexivity. Qed.

Lemma bind_ret_snd {A B} (m : Prog Cache A) (g : A -> B) (w : World Cache) :
  snd ((m ≫= fun a => mret (g a)) w) = snd (m w).
Proof. rewrite bind_run. destruct (m w) as [[a|e] w']; reflexivity. Qed.

Lemma can_call_fst (node : Node) (actions : list string) (w : World Cache) :
  fst (_can_call_without_mfa node actions w) = can_call_answer node actions.
Proof.
  revert w. induction actions as [|action rest IH]; intros w; [reflexivity|].
  cbn [_can_call_without_mfa can_call_answer]. rewrite bind_run. unfold query.
  destruct (local_check_authorization_handling_mfa node action "*" ∅)
    as [[auth needmfa]|e]; [|reflexivity].
  destruct (auth && negb needmfa); [reflexivity | apply IH].
Qed.

Lemma collectM_fst {A} (keep : A -> Prog Cache bool) (keepR : A -> Result bool)
    (xs acc : list A) (w : World Cache) :
  (forall x w, fst (keep x w) = keepR x) ->
  fst (collectM keep xs acc w) = collectR keepR xs acc.
Proof.
  intros Hkeep. revert acc w.
  induction xs as [|x rest IH]; intros acc w; [reflexivity|].
  cbn [collectM collectR]. rewrite bind_run. rewrite <- (Hkeep x w).
  destruct (keep x w) as [[b|e] w']; [apply IH | reflexivity].
Qed.

Lemma collectR_returns {A} (keep : A -> Result bool) (xs acc : list A) :
  Forall (fun x => returns (keep x) = true) xs ->
  collectR keep xs acc = Ok (acc ++ List.filter (kept keep) xs).
Proof.
  intros Hall. revert acc.
  induction Hall as [|x rest Hx _ IH]; intros acc; cbn [collectR List.filter].
  - now rewrite app_nil_r.
  - unfold kept at 1. destruct (keep x) as [[|]|e]; [| |discriminate].
    + rewrite IH. now rewrite <- app_assoc.
    + apply IH.
Qed.


Lemma collectR_ok {A} (keep : A -> Result bool) (xs acc l : list A) :
  collectR keep xs acc = Ok l ->
  Forall (fun x => returns (keep x) = true) xs
  /\ l = acc ++ List.filter (kept keep) xs.
Proof.
  revert acc l.
  induction xs as [|x rest IH]; intros acc l; cbn [collectR List.filter].
  - intros H. injection H as <-. split; [constructor | now rewrite app_nil_r].
  - unfold kept at 1. destruct (keep x) as [[|]|e] eqn:Hx; [| |discriminate];
      intros H; destruct (IH _ _ H) as [Hall ->];
      (split; [constructor; [rewrite Hx; reflexivity | exact Hall]|]).
    + now rewrite <- app_assoc.
    + reflexivity.
Qed.

Lemma collectR_cases {A} (keep : A -> Result bool) (xs acc : list A) :
  Forall (fun x => returns (keep x) = true) xs
  \/ exists e, collectR keep xs acc = Raise e.
Proof.
  destruct (collectR keep xs acc) as [l|e] eqn:H.
  - left. exact (proj1 (collectR_ok keep xs acc l H)).
  - right. exists e. reflexivity.
Qed.

(** *** What the queries answer *)

Lemma refuses_not_authorizes (node : Node) (action : string) :
  refuses node action ->
  local_check_authorization_handling_mfa node action "*" ∅ <> Ok (true, false).
Proof.
  intros (auth & needmfa & Hq & Hno) Hyes. rewrite Hq in Hyes.
  injection Hyes as -> ->. discriminate.
Qed.

Lemma can_call_answer_refused (node : Node) (before rest : list string) :
  Forall (refuses node) before ->
  can_call_answer node (before ++ rest) = can_call_answer node rest.
Proof.
  induction 1 as [|action before (auth & needmfa & Hq & Hno) _ IH]; [reflexivity|].
  cbn [app can_call_answer]. rewrite Hq, Hno. exact IH.
Qed.

Lemma can_call_answer_false (node : Node) (actions : list string) :
  can_call_answer node actions = Ok false <-> Forall (refuses node) actions.
Proof.
  split.
  - induction actions as [|action rest IH]; cbn [can_call_answer];
      [constructor|].
    destruct (local_check_authorization_handling_mfa node action "*" ∅)
      as [[auth needmfa]|e] eqn:Hq; [|discriminate].
    destruct (auth && negb needmfa) eqn:Hno; [discriminate|].
    intros H. constructor; [exists auth, needmfa; auto | exact (IH H)].
  - intros Hall. rewrite <- (app_nil_r actions).
    now rewrite (can_call_answer_refused node actions [] Hall).
Qed.

Lemma can_call_answer_true (node : Node) (actions : list string) :
  can_call_answer node actions = Ok true <->
  exists before action after,
    actions = before ++ action :: after
    /\ Forall (refuses node) before
    /\ local_check_authorization_handling_mfa node action "*" ∅ = Ok (true, false).
Proof.
  split.
  - induction actions as [|action rest IH]; cbn [can_call_answer];
      [discriminate|].
    destruct (local_check_authorization_handling_mfa node action "*" ∅)
      as [[auth needmfa]|e] eqn:Hq; [|discriminate].
    destruct (auth && negb needmfa) eqn:Hyes.
    + intros _. exists [], action, rest. split; [reflexivity|].
      split; [constructor|]. rewrite Hq.
      destruct auth, needmfa; try discriminate; reflexivity.
    + intros H. destruct (IH H) as (before & a & after & -> & Hall & Ha).
      exists (action :: before), a, after. split; [reflexivity|].
      split; [|exact Ha]. constructor; [exists auth, needmfa; auto | exact Hall].
  - intros (before & action & after & -> & Hall & Hq).
    rewrite (can_call_answer_refused node before _ Hall).
    cbn [can_call_answer]. rewrite Hq. reflexivity.
Qed.

Lemma can_call_answer_raise (node : Node) (actions : list string) (e : exn) :
  can_call_answer node actions = Raise e <->
  exists before action after,
    actions = before ++ action :: after
    /\ Forall (refuses node) before
    /\ local_check_authorization_handling_mfa node action "*" ∅ = Raise e.
Proof.
  split.
  - induction actions as [|action rest IH]; cbn [can_call_answer];
      [discriminate|].
    destruct (local_check_authorization_handling_mfa node action "*" ∅)
      as [[auth needmfa]|e'] eqn:Hq.
    + destruct (auth && negb needmfa) eqn:Hyes; [discriminate|].
      intros H. destruct (IH H) as (before & a & after & -> & Hall & Ha).
      exists (action :: before), a, after. split; [reflexivity|].
      split; [|exact Ha]. constructor; [exists auth, needmfa; auto | exact Hall].
    + intros H. injection H as <-. exists [], action, rest.
      split; [reflexivity|]. split; [constructor | exact Hq].
  - intros (before & action & after & -> & Hall & Hq).
    rewrite (can_call_answer_refused node before _ Hall).
    cbn [can_call_answer]. rewrite Hq. reflexivity.
Qed.

(** Some action of the list is authorized without MFA exactly when the
    loop, having answered, answered True. *)
Lemma can_call_answer_authorized (node : Node) (actions : list string) (b : bool) :
  can_call_answer node actions = Ok b ->
  (b = true <->
   exists action, In action actions
     /\ local_check_authorization_handling_mfa node action "*" ∅ = Ok (true, false)).
Proof.
  intros Hb. split.
  - intros ->. apply can_call_answer_true in Hb
      as (before & action & after & -> & _ & Hq).
    exists action. split; [|exact Hq]. apply in_or_app. right. left. reflexivity.
  - intros (action & Hin & Hq). destruct b; [reflexivity|].
    apply can_call_answer_false in Hb. rewrite List.Forall_forall in Hb.
    destruct (refuses_not_authorizes node action (Hb action Hin) Hq).
Qed.



(** *** What the generators return *)



Lemma mfa_test_fst (node : Node) (w : World Cache) :
  fst ((if contains ":user/" (arn node) && is_admin node && (access_keys node >? 0)
        then _can_call_without_mfa node sensitive_actions
        else mret false) w)
  = mfa_keep node.
Proof.
  unfold mfa_keep, mfa_guard.
  destruct (contains ":user/" (arn node) && is_admin node && (access_keys node >? 0));
    [apply can_call_fst | reflexivity].
Qed.

Lemma service_can_assume_fst (service : string) (node : Node) (w : World Cache) :
  fst (service_can_assume service node w)
  = match trust_answer service node with
    | Ok answer => Ok (ResourcePolicyEvalResult_eqb answer SERVICE_MATCH)
    | Raise e => Raise e
    end.
Proof.
  unfold service_can_assume, trust_answer. rewrite bind_run. unfold lift.
  destruct (get_account_id (arn node)) as [account|e]; [|reflexivity].
  rewrite bind_run. unfold query.
  destruct (resource_policy_authorization service account (trust_policy node)
              "sts:AssumeRole" (arn node) ∅ false); reflexivity.
Qed.

Lemma service_test_fst (service : string) (node : Node) (w : World Cache) :
  fst ((if contains ":role/" (arn node) && is_admin node
        then service_can_assume service node
        else mret false) w)
  = service_keep service node.
Proof.
  unfold service_keep, role_guard.
  destruct (contains ":role/" (arn node) && is_admin node);
    [apply service_can_assume_fst | reflexivity].
Qed.

Lemma mfa_affected_users_fst (graph : Graph) (w : World Cache) :
  fst (mfa_affected_users graph w) = collectR mfa_keep (nodes graph) [].
Proof. apply collectM_fst. intros node w'. apply mfa_test_fst. Qed.

Lemma function_affected_roles_fst (graph : Graph) (w : World Cache) :
  fst (function_affected_roles graph w)
  = collectR (service_keep "lambda.amazonaws.com") (nodes graph) [].
Proof. apply collectM_fst. intros node w'. apply service_test_fst. Qed.

Lemma stack_affected_roles_fst (graph : Graph) (w : World Cache) :
  fst (stack_affected_roles graph w)
  = collectR (service_keep "cloudformation.amazonaws.com") (nodes graph) [].
Proof. apply collectM_fst. intros node w'. apply service_test_fst. Qed.

Lemma gen_mfa_actions_findings_fst (graph : Graph) (w : World Cache) :
  fst (gen_mfa_actions_findings graph w)
  = match collectR mfa_keep (nodes graph) [] with
    | Ok users => Ok (about mfa_finding users)
    | Raise e => Raise e
    end.
Proof.
  unfold gen_mfa_actions_findings. cbv zeta.
  rewrite bind_run, <- (mfa_affected_users_fst graph w).
  destruct (mfa_affected_users graph w) as [[affected|e] w']; reflexivity.
Qed.

Lemma gen_overprivileged_function_findings_fst (graph : Graph) (w : World Cache) :
  fst (gen_overprivileged_function_findings graph w)
  = match collectR (service_keep "lambda.amazonaws.com") (nodes graph) [] with
    | Ok roles => Ok (about function_finding roles)
    | Raise e => Raise e
    end.
Proof.
  unfold gen_overprivileged_function_findings. cbv zeta.
  rewrite bind_run, <- (function_affected_roles_fst graph w).
  destruct (function_affected_roles graph w) as [[affected|e] w']; reflexivity.
Qed.

Lemma gen_overprivileged_stack_findings_fst (graph : Graph) (w : World Cache) :
  fst (gen_overprivileged_stack_findings graph w)
  = match collectR (service_keep "cloudformation.amazonaws.com") (nodes graph) [] with
    | Ok roles => Ok (about stack_finding roles)
    | Raise e => Raise e
    end.
Proof.
  unfold gen_overprivileged_stack_findings. cbv zeta.
  rewrite bind_run, <- (stack_affected_roles_fst graph w).
  destruct (stack_affected_roles graph w) as [[affected|e] w']; reflexivity.
Qed.


(** *** What the programs leave behind *)

Lemma frames_ret {A} (I : Cache -> Prop) (a : A) : frames I (mret a).
Proof. intros w HI. repeat split. exact HI. Qed.

Lemma frames_lift {A} (I : Cache -> Prop) (r : Result A) : frames I (lift r).
Proof. intros w HI. repeat split. exact HI. Qed.

Lemma frames_query {A} (I : Cache -> Prop) (answer : Result A)
    (writes : Cache -> Cache) :
  (forall cache, I cache -> I (writes cache)) -> frames I (query answer writes).
Proof. intros Hw w HI. repeat split. apply Hw. exact HI. Qed.

Lemma frames_bind {A B} (I : Cache -> Prop) (m : Prog Cache A)
    (k : A -> Prog Cache B) :
  frames I m ->
  (forall a w, fst (m w) = Ok a -> frames I (k a)) ->
  frames I (m ≫= k).
Proof.
  intros Hm Hk w HI. rewrite bind_run. specialize (Hm w HI).
  destruct (m w) as [[a|e] w'] eqn:Hmw; cbn [fst snd] in Hm; [|exact Hm].
  destruct Hm as (HI' & Hg & Hc & Hf).
  assert (Hka : frames I (k a)) by (apply (Hk a w); now rewrite Hmw).
  destruct (Hka w' HI') as (HI'' & Hg' & Hc' & Hf').
  repeat split; [exact HI'' | congruence | congruence | congruence].
Qed.

Lemma frames_collectM {A} (I : Cache -> Prop) (keep : A -> Prog Cache bool)
    (xs acc : list A) :
  (forall x, In x xs -> frames I (keep x)) -> frames I (collectM keep xs acc).
Proof.
  revert acc. induction xs as [|x rest IH]; intros acc Hkeep.
  - apply frames_ret.
  - cbn [collectM]. apply frames_bind.
    + apply Hkeep. left. reflexivity.
    + intros kept_ w _. apply IH. intros y Hy. apply Hkeep. right. exact Hy.
Qed.

Lemma frames_can_call (I : Cache -> Prop) (node : Node) (actions : list string) :
  (forall action cache, In action actions -> I cache ->
     I (local_check_writes node action "*" ∅ cache)) ->
  frames I (_can_call_without_mfa node actions).
Proof.
  induction actions as [|action rest IH]; intros Hw.
  - apply frames_ret.
  - cbn [_can_call_without_mfa]. apply frames_bind.
    + apply frames_query. intros cache. apply Hw. left. reflexivity.
    + intros [auth needmfa] w _.
      destruct (auth && negb needmfa); [apply frames_ret|].
      apply IH. intros a cache Ha. apply Hw. right. exact Ha.
Qed.

Lemma frames_service_can_assume (I : Cache -> Prop) (service : string) (node : Node) :
  (forall account cache, get_account_id (arn node) = Ok account -> I cache ->
     I (resource_policy_writes service account (trust_policy node)
          "sts:AssumeRole" (arn node) ∅ false cache)) ->
  frames I (service_can_assume service node).
Proof.
  intros Hw. unfold service_can_assume. apply frames_bind; [apply frames_lift|].
  intros account w Haccount. apply frames_bind.
  - apply frames_query. intros cache. apply Hw. exact Haccount.
  - intros answer w' _. apply frames_ret.
Qed.

Lemma frames_mfa_affected_users (I : Cache -> Prop) (graph : Graph) :
  queries_keep I graph -> frames I (mfa_affected_users graph).
Proof.
  intros [Hmfa _]. apply frames_collectM. intros node Hin.
  fold (mfa_guard node). destruct (mfa_guard node) eqn:Hguard; [|apply frames_ret].
  apply frames_can_call. intros action cache Ha. now apply Hmfa.
Qed.

Lemma frames_service_affected_roles (I : Cache -> Prop) (graph : Graph)
    (service : string) :
  In service ["lambda.amazonaws.com"; "cloudformation.amazonaws.com"] ->
  queries_keep I graph ->
  frames I
    (collectM
       (fun node =>
          if contains ":role/" (arn node) && is_admin node
          then service_can_assume service node
          else mret false)
       (nodes graph) []).
Proof.
  intros Hservice [_ Htrust]. apply frames_collectM. intros node Hin.
  fold (role_guard node). destruct (role_guard node) eqn:Hguard; [|apply frames_ret].
  apply frames_service_can_assume. intros account cache Haccount.
  now apply (Htrust node service account cache).
Qed.

Lemma frames_gen_all_findings (I : Cache -> Prop) (graph : Graph) :
  queries_keep I graph -> frames I (gen_all_findings graph).
Proof.
  intros Hkeep. unfold gen_all_findings. cbv zeta.
  apply frames_bind; [apply frames_lift|]. intros privesc w1 _.
  apply frames_bind.
  { unfold gen_mfa_actions_findings. cbv zeta. apply frames_bind.
    - now apply frames_mfa_affected_users.
    - intros users w _. apply frames_ret. }
  intros mfa w2 _. apply frames_bind.
  { unfold gen_overprivileged_function_findings. cbv zeta. apply frames_bind.
    - apply frames_service_affected_roles; [left; reflexivity | exact Hkeep].
    - intros roles w _. apply frames_ret. }
  intros function w3 _. apply frames_bind.
  { unfold gen_overprivileged_stack_findings. cbv zeta. apply frames_bind.
    - apply frames_service_affected_roles; [right; left; reflexivity | exact Hkeep].
    - intros roles w _. apply frames_ret. }
  intros stack w4 _. apply frames_ret.
Qed.

(** *** The loops over guarded tests *)






(** *** The four findings about administrators *)

(** C5: gen_overprivileged_instance_profile_findings returns the empty
    list when no node of the graph has ':role/' in its ARN, is an
    administrator and has an instance profile that is not None; otherwise
    it returns a single finding of severity 'High' whose description is the
    preamble followed by one line '* <searchable name>' for each such node,
    in the order of graph.nodes. *)
Theorem C5_instance_profile_findings (graph : Graph) :
  let roles :=
    List.filter
      (fun node =>
         contains ":role/" (arn node) && is_admin node
         && match instance_profile node with Some _ => true | None => false end)
      (nodes graph) in
  (forall node, In node roles <->
     In node (nodes graph) /\ contains ":role/" (arn node) = true
     /\ is_admin node = true /\ instance_profile node <> None)
  /\ (roles = [] -> gen_overprivileged_instance_profile_findings graph = [])
  /\ (roles <> [] ->
      exists f, gen_overprivileged_instance_profile_findings graph = [f]
        /\ severity f = "High"
        /\ description f
           = ("In AWS, EC2 instances can be given an instance profile. These instance profiles "
              +:+ "are associated with an IAM Role, and grants access to the permissions of the IAM "
              +:+ "Role. Because EC2 instances are at a higher risk of exposure and compromise, both "
              +:+ "to external attackers and authorized users in the AWS account, they should not have "
              +:+ "access to administrative privileges. The following IAM Roles have administrative "
              +:+ "permissions and are associated with an instance profile:" +:+ nl +:+ nl)
             +:+ concat_lines
                   (fun node => "* " +:+ searchable_name node +:+ nl) roles).
Proof.
  intros roles.
  assert (Hroles : instance_profile_affected_roles graph = roles)
    by (unfold instance_profile_affected_roles; apply collect_filter).
  assert (Hgen : gen_overprivileged_instance_profile_findings graph
                 = match roles with
                   | [] => []
                   | _ :: _ => [instance_profile_finding (1 <? length roles)%nat
                                  (concat_lines bullet roles)]
                   end).
  { unfold gen_overprivileged_instance_profile_findings. cbv zeta.
    rewrite Hroles. apply finding_list_shape. }
  split; [|split].
  - intros node. subst roles.
    rewrite filter_In, andb3_true.
    destruct (instance_profile node); split;
      intros (H1 & H2 & H3 & H4); repeat split;
      try assumption; try discriminate; try reflexivity.
    now destruct H4.
  - intros Hnil. rewrite Hgen, Hnil. reflexivity.
  - intros Hne. rewrite Hgen. destruct roles as [|r rest]; [congruence|].
    eexists. split; [reflexivity|]. split; reflexivity.
Qed.


(** C6: what _can_call_without_mfa does is decided by the answers of the
    queries, taken in the order of the list.  It returns False exactly
    when every query answers and none answers (True, False); it returns
    True exactly when a query answers (True, False) after queries that
    answered otherwise; and it raises an exception exactly when a query
    raises it after queries that answered otherwise: the exception of a
    query is not caught. *)
Theorem C6_can_call_without_mfa (node : Node) (actions : list string)
    (w : World Cache) :
  let answer action := local_check_authorization_handling_mfa node action "*" ∅ in
  let refused action :=
    exists auth needmfa,
      answer action = Ok (auth, needmfa) /\ auth && negb needmfa = false in
  (fst (_can_call_without_mfa node actions w) = Ok false <->
     Forall refused actions)
  /\ (fst (_can_call_without_mfa node actions w) = Ok true <->
      exists before action after,
        actions = before ++ action :: after
        /\ Forall refused before /\ answer action = Ok (true, false))
  /\ (forall e, fst (_can_call_without_mfa node actions w) = Raise e <->
      exists before action after,
        actions = before ++ action :: after
        /\ Forall refused before /\ answer action = Raise e).
Proof.
  intros answer refused. rewrite can_call_fst.
  split; [|split].
  - apply can_call_answer_false.
  - apply can_call_answer_true.
  - intros e. apply can_call_answer_raise.
Qed.



(** *** gen_all_findings and gen_report *)

Lemma gen_all_findings_fst (graph : Graph) (w : World Cache) :
  fst (gen_all_findings graph w)
  = match gen_privesc_findings graph with
    | Raise e => Raise e
    | Ok privesc =>
        match collectR mfa_keep (nodes graph) [] with
        | Raise e => Raise e
        | Ok users =>
            match collectR (service_keep "lambda.amazonaws.com") (nodes graph) [] with
            | Raise e => Raise e
            | Ok lambda_roles =>
                match collectR (service_keep "cloudformation.amazonaws.com")
                        (nodes graph) [] with
                | Raise e => Raise e
                | Ok stack_roles =>
                    Ok (privesc ++ about mfa_finding users
                          ++ about function_finding lambda_roles
                          ++ gen_overprivileged_instance_profile_findings graph
                          ++ about stack_finding stack_roles)
                end
            end
        end
    end.
Proof.
  unfold gen_all_findings. cbv zeta. rewrite bind_run. unfold lift.
  destruct (gen_privesc_findings graph) as [privesc|e]; [|reflexivity].
  rewrite bind_run.
  pose proof (gen_mfa_actions_findings_fst graph w) as Hm.
  destruct (gen_mfa_actions_findings graph w) as [[mfa|e] w1]; cbn [fst] in Hm;
    destruct (collectR mfa_keep (nodes graph) []) as [users|e'];
    try discriminate; [|cbn; congruence].
  injection Hm as ->. rewrite bind_run.
  pose proof (gen_overprivileged_function_findings_fst graph w1) as Hf.
  destruct (gen_overprivileged_function_findings graph w1) as [[function|e] w2];
    cbn [fst] in Hf;
    destruct (collectR (service_keep "lambda.amazonaws.com") (nodes graph) [])
      as [lambda_roles|e'];
    try discriminate; [|cbn; congruence].
  injection Hf as ->. rewrite bind_run.
  pose proof (gen_overprivileged_stack_findings_fst graph w2) as Hs.
  destruct (gen_overprivileged_stack_findings graph w2) as [[stack|e] w3];
    cbn [fst] in Hs;
    destruct (collectR (service_keep "cloudformation.amazonaws.com") (nodes graph) [])
      as [stack_roles|e'];
    try discriminate; [|cbn; congruence].
  injection Hs as ->. cbn. now rewrite <- !app_assoc.
Qed.

(** What gen_all_findings returns or raises does not depend on what the
    queries have written so far. *)
Lemma gen_all_findings_fst_any (graph : Graph) (w w' : World Cache) :
  fst (gen_all_findings graph w) = fst (gen_all_findings graph w').
Proof. now rewrite !gen_all_findings_fst. Qed.



Lemma queries_keep_anything (graph : Graph) : queries_keep (fun _ => True) graph.
Proof. split; intros; exact I. Qed.


Lemma gen_report_run (w : World Cache) :
  gen_report w
  = match gen_all_findings (w_graph w) w with
    | (Raise e, w') => (Raise e, w')
    | (Ok findings, w') =>
        match metadata (w_graph w) !! "account_id" with
        | None => (Raise (KeyError "account_id"), w')
        | Some account =>
            (Ok (Report.make account (w_clock w') findings report_source), w')
        end
    end.
Proof.
  unfold gen_report. rewrite bind_run. unfold the_graph. rewrite bind_run.
  destruct (gen_all_findings (w_graph w) w) as [[findings|e] w']; [|reflexivity].
  rewrite bind_run. unfold lift, getitem.
  destruct (metadata (w_graph w) !! "account_id"); reflexivity.
Qed.

Lemma gen_report_snd (w : World Cache) :
  snd (gen_report w) = snd (gen_all_findings (w_graph w) w).
Proof.
  rewrite gen_report_run.
  destruct (gen_all_findings (w_graph w) w) as [[findings|e] w']; [|reflexivity].
  destruct (metadata (w_graph w) !! "account_id"); reflexivity.
Qed.

Lemma gen_report_fst (w : World Cache) :
  fst (gen_report w)
  = match fst (gen_all_findings (w_graph w) w) with
    | Raise e => Raise e
    | Ok findings =>
        match metadata (w_graph w) !! "account_id" with
        | None => Raise (KeyError "account_id")
        | Some account =>
            Ok (Report.make account (w_clock w) findings report_source)
        end
    end.
Proof.
  rewrite gen_report_run.
  destruct (frames_gen_all_findings (fun _ => True) (w_graph w)
              (queries_keep_anything _) w I) as (_ & _ & Hclock & _).
  destruct (gen_all_findings (w_graph w) w) as [[findings|e] w']; [|reflexivity].
  cbn [fst snd] in *.
  destruct (metadata (w_graph w) !! "account_id"); [|reflexivity].
  cbn [fst]. now rewrite Hclock.
Qed.

Lemma gen_findings_to_file_run (formatting file : string) (w : World Cache) :
  gen_findings_to_file formatting file w
  = (Raise match fst (gen_report w) with
           | Ok _ => TypeError "'str' object is not callable"
           | Raise e => e
           end,
     snd (gen_report w)).
Proof.
  unfold gen_findings_to_file. rewrite bind_run.
  destruct (gen_report w) as [[report|e] w']; reflexivity.
Qed.

Lemma gen_findings_and_print_run (formatting : string) (w : World Cache)
    (stdout : string) :
  gen_findings_and_print formatting w stdout
  = match fst (gen_report w) with
    | Raise e => (Raise e, snd (gen_report w), stdout)
    | Ok report =>
        (Ok tt, snd (gen_report w),
         if String.eqb formatting "text" then print_report report stdout
         else stdout +:+ json_dumps (as_dictionary report) 4 +:+ nl)
    end.
Proof.
  unfold gen_findings_and_print.
  destruct (gen_report w) as [[report|e] w']; [|reflexivity].
  destruct (String.eqb formatting "text"); reflexivity.
Qed.


(** C8: gen_findings_to_file never returns and never writes a file.  It
    raises what gen_report raises, and the TypeError of calling os.curdir,
    a string, once gen_report has returned; in either case it leaves the
    world as gen_report left it, with the files as they were. *)
Theorem C8_gen_findings_to_file_raises (formatting file : string)
    (w : World Cache) :
  gen_findings_to_file formatting file w
  = (Raise match fst (gen_report w) with
           | Ok _ => TypeError "'str' object is not callable"
           | Raise e => e
           end,
     snd (gen_report w))
  /\ w_files (snd (gen_findings_to_file formatting file w)) = w_files w.
Proof.
  rewrite gen_findings_to_file_run. split; [reflexivity|]. cbn [snd].
  rewrite gen_report_snd.
  apply (frames_gen_all_findings (fun _ => True) (w_graph w)
           (queries_keep_anything _) w I).
Qed.

Lemma about_bound (mk : bool -> string -> Finding) (sev : string)
    (affected : list Node) :
  (forall plural body, severity (mk plural body) = sev) ->
  (length (about mk affected) <= 1)%nat
  /\ Forall (fun f => severity f = sev) (about mk affected).
Proof. intros Hsev. exact (generator_bound mk sev affected Hsev). Qed.

Lemma generator_fst_bound (mk : bool -> string -> Finding) (sev : string)
    (run : Result (list Node)) (l : list Finding) :
  (forall plural body, severity (mk plural body) = sev) ->
  match run with
  | Ok affected => Ok (about mk affected)
  | Raise e => Raise e
  end = Ok l ->
  (length l <= 1)%nat /\ Forall (fun f => severity f = sev) l.
Proof.
  intros Hsev. destruct run as [affected|e]; [|discriminate].
  intros H. injection H as <-. now apply about_bound.
Qed.

Lemma gen_privesc_findings_bound (graph : Graph) (l : list Finding) :
  gen_privesc_findings graph = Ok l ->
  (length l <= 1)%nat /\ Forall (fun f => severity f = "High") l.
Proof.
  intros Hl. apply length_le_1_cases.
  destruct (gen_privesc_findings_shape graph l Hl)
    as [-> | (plural & body & ->)]; [left; reflexivity|].
  right. eexists. split; reflexivity.
Qed.

(** C10: each of the five generators gen_all_findings calls returns at
    most one finding, so gen_all_findings returns at most five, and the
    severity of every finding returned is 'Low', 'Medium' or 'High';
    gen_all_findings returns whenever every escalation path has an edge
    and the three generators that query return. *)
Theorem C10_findings_bounded (graph : Graph) (w : World Cache) :
  (forall l, gen_privesc_findings graph = Ok l -> (length l <= 1)%nat)
  /\ (forall l, fst (gen_mfa_actions_findings graph w) = Ok l ->
        (length l <= 1)%nat)
  /\ (forall l, fst (gen_overprivileged_function_findings graph w) = Ok l ->
        (length l <= 1)%nat)
  /\ (length (gen_overprivileged_instance_profile_findings graph) <= 1)%nat
  /\ (forall l, fst (gen_overprivileged_stack_findings graph w) = Ok l ->
        (length l <= 1)%nat)
  /\ (forall l, fst (gen_all_findings graph w) = Ok l ->
        (length l <= 5)%nat /\ Forall known_severity l)
  /\ (paths_nonempty graph ->
      returns (fst (gen_mfa_actions_findings graph w)) = true ->
      returns (fst (gen_overprivileged_function_findings graph w)) = true ->
      returns (fst (gen_overprivileged_stack_findings graph w)) = true ->
      exists l, fst (gen_all_findings graph w) = Ok l).
Proof.
  rewrite gen_mfa_actions_findings_fst, gen_overprivileged_function_findings_fst,
    gen_overprivileged_stack_findings_fst, gen_all_findings_fst.
  pose proof (generator_bound instance_profile_finding "High"
                (instance_profile_affected_roles graph)
                (fun _ _ => eq_refl)) as [Hi1 Hi2].
  fold (gen_overprivileged_instance_profile_findings graph) in Hi1, Hi2.
  split; [intros l Hl; apply (gen_privesc_findings_bound graph l Hl)|].
  split; [intros l Hl;
          apply (generator_fst_bound mfa_finding "Medium" _ l (fun _ _ => eq_refl) Hl)|].
  split; [intros l Hl;
          apply (generator_fst_bound function_finding "Medium" _ l
                   (fun _ _ => eq_refl) Hl)|].
  split; [exact Hi1|].
  split; [intros l Hl;
          apply (generator_fst_bound stack_finding "Low" _ l (fun _ _ => eq_refl) Hl)|].
  split.
  - intros l.
    destruct (gen_privesc_findings graph) as [privesc|e] eqn:Hp; [|discriminate].
    destruct (collectR mfa_keep (nodes graph) []) as [users|e]; [|discriminate].
    destruct (collectR (service_keep "lambda.amazonaws.com") (nodes graph) [])
      as [lambda_roles|e]; [|discriminate].
    destruct (collectR (service_keep "cloudformation.amazonaws.com") (nodes graph) [])
      as [stack_roles|e]; [|discriminate].
    intros H. injection H as <-.
    destruct (gen_privesc_findings_bound graph privesc Hp) as [Hp1 Hp2].
    destruct (about_bound mfa_finding "Medium" users (fun _ _ => eq_refl))
      as [Hm1 Hm2].
    destruct (about_bound function_finding "Medium" lambda_roles (fun _ _ => eq_refl))
      as [Hf1 Hf2].
    destruct (about_bound stack_finding "Low" stack_roles (fun _ _ => eq_refl))
      as [Hs1 Hs2].
    split.
    + rewrite !length_app. lia.
    + unfold known_severity.
      repeat apply Forall_app_2;
        (eapply List.Forall_impl; [|eassumption]);
        intros f Hf; rewrite Hf; simpl; auto.
  - intros Hpaths Hm Hf Hs.
    rewrite (gen_privesc_findings_ok graph Hpaths).
    destruct (collectR mfa_keep (nodes graph) []) as [users|e]; [|discriminate].
    destruct (collectR (service_keep "lambda.amazonaws.com") (nodes graph) [])
      as [lambda_roles|e]; [|discriminate].
    destruct (collectR (service_keep "cloudformation.amazonaws.com") (nodes graph) [])
      as [stack_roles|e]; [|discriminate].
    eexists. reflexivity.
Qed.

(** *** Further properties of find_risks.py *)

Lemma about_shape (mk : bool -> string -> Finding) (affected : list Node) :
  about mk affected = [] \/ exists plural body, about mk affected = [mk plural body].
Proof. exact (finding_list_cases mk affected). Qed.

Lemma about_titles (mk : bool -> string -> Finding) (affected : list Node)
    (f : Finding) :
  In f (about mk affected) -> exists body, f = mk (1 <? length affected)%nat body.
Proof. exact (finding_list_titles mk affected f). Qed.

Lemma about_permutation (mk : bool -> string -> Finding) (l1 l2 : list Node) :
  Permutation l1 l2 ->
  (forall plural body1 body2, title (mk plural body1) = title (mk plural body2)) ->
  map title (about mk l1) = map title (about mk l2).
Proof. exact (finding_list_permutation mk l1 l2). Qed.

Lemma collectR_permutation {A} (keep : A -> Result bool) (xs ys l : list A) :
  Permutation xs ys -> collectR keep xs [] = Ok l ->
  exists l', collectR keep ys [] = Ok l' /\ Permutation l l'.
Proof.
  intros Hperm H. apply collectR_ok in H as [Hall ->].
  exists (List.filter (kept keep) ys). split.
  - rewrite collectR_returns; [reflexivity|].
    exact (Permutation_Forall Hperm Hall).
  - cbn [app]. now apply filter_permutation.
Qed.

Lemma collectM_skip {A} (keep : A -> Prog Cache bool) (p : A -> bool)
    (xs acc : list A) (w : World Cache) :
  (forall x w, p x = false -> keep x w = (Ok false, w)) ->
  collectM keep xs acc w = collectM keep (List.filter p xs) acc w.
Proof.
  intros Hskip. revert acc w.
  induction xs as [|x rest IH]; intros acc w; [reflexivity|].
  cbn [List.filter]. destruct (p x) eqn:Hp; cbn [collectM]; rewrite bind_run.
  - rewrite bind_run. destruct (keep x w) as [[b|e] w']; [apply IH | reflexivity].
  - rewrite (Hskip x w Hp). apply IH.
Qed.

Lemma mfa_test_skip (node : Node) (w : World Cache) :
  is_admin node = false ->
  (if contains ":user/" (arn node) && is_admin node && (access_keys node >? 0)
   then _can_call_without_mfa node sensitive_actions
   else mret false) w = (Ok false, w).
Proof.
  intros ->. rewrite andb_false_r. reflexivity.
Qed.

Lemma service_test_skip (service : string) (node : Node) (w : World Cache) :
  is_admin node = false ->
  (if contains ":role/" (arn node) && is_admin node
   then service_can_assume service node
   else mret false) w = (Ok false, w).
Proof.
  intros ->. rewrite andb_false_r. reflexivity.
Qed.

Lemma mfa_affected_users_admins (graph : Graph) (w : World Cache) :
  mfa_affected_users graph w
  = collectM
      (fun node =>
         if contains ":user/" (arn node) && is_admin node && (access_keys node >? 0)
         then _can_call_without_mfa node sensitive_actions
         else mret false)
      (List.filter is_admin (nodes graph)) [] w.
Proof.
  unfold mfa_affected_users. apply collectM_skip.
  intros node w'. apply mfa_test_skip.
Qed.

Lemma function_affected_roles_admins (graph : Graph) (w : World Cache) :
  function_affected_roles graph w
  = collectM
      (fun node =>
         if contains ":role/" (arn node) && is_admin node
         then service_can_assume "lambda.amazonaws.com" node
         else mret false)
      (List.filter is_admin (nodes graph)) [] w.
Proof.
  unfold function_affected_roles. apply collectM_skip.
  intros node w'. apply service_test_skip.
Qed.

Lemma stack_affected_roles_admins (graph : Graph) (w : World Cache) :
  stack_affected_roles graph w
  = collectM
      (fun node =>
         if contains ":role/" (arn node) && is_admin node
         then service_can_assume "cloudformation.amazonaws.com" node
         else mret false)
      (List.filter is_admin (nodes graph)) [] w.
Proof.
  unfold stack_affected_roles. apply collectM_skip.
  intros node w'. apply service_test_skip.
Qed.

Lemma instance_profile_affected_roles_admins (graph : Graph) :
  instance_profile_affected_roles graph
  = List.filter instance_profile_test (List.filter is_admin (nodes graph)).
Proof.
  unfold instance_profile_affected_roles. rewrite collect_filter.
  symmetry. apply filter_within. intros node Htest.
  unfold instance_profile_test in Htest. apply andb3_true in Htest.
  exact (proj1 (proj2 Htest)).
Qed.

Lemma no_admins (graph : Graph) :
  (forall node, In node (nodes graph) -> is_admin node = false) ->
  List.filter is_admin (nodes graph) = [].
Proof. apply filter_none. Qed.

Lemma gen_all_findings_no_admin (graph : Graph) (w : World Cache) :
  (forall node, In node (nodes graph) -> is_admin node = false) ->
  gen_mfa_actions_findings graph w = (Ok [], w)
  /\ gen_overprivileged_function_findings graph w = (Ok [], w)
  /\ gen_overprivileged_instance_profile_findings graph = []
  /\ gen_overprivileged_stack_findings graph w = (Ok [], w)
  /\ gen_all_findings graph w = (gen_privesc_findings graph, w).
Proof.
  intros Hnone. pose proof (no_admins graph Hnone) as Hnil.
  assert (Hm : forall w, gen_mfa_actions_findings graph w = (Ok [], w)).
  { intros w0. unfold gen_mfa_actions_findings. cbv zeta.
    rewrite bind_run, mfa_affected_users_admins, Hnil. reflexivity. }
  assert (Hf : forall w, gen_overprivileged_function_findings graph w = (Ok [], w)).
  { intros w0. unfold gen_overprivileged_function_findings. cbv zeta.
    rewrite bind_run, function_affected_roles_admins, Hnil. reflexivity. }
  assert (Hi : gen_overprivileged_instance_profile_findings graph = []).
  { unfold gen_overprivileged_instance_profile_findings. cbv zeta.
    rewrite instance_profile_affected_roles_admins, Hnil. reflexivity. }
  assert (Hs : forall w, gen_overprivileged_stack_findings graph w = (Ok [], w)).
  { intros w0. unfold gen_overprivileged_stack_findings. cbv zeta.
    rewrite bind_run, stack_affected_roles_admins, Hnil. reflexivity. }
  split; [apply Hm|]. split; [apply Hf|]. split; [exact Hi|]. split; [apply Hs|].
  unfold gen_all_findings. cbv zeta. rewrite bind_run. unfold lift.
  destruct (gen_privesc_findings graph) as [privesc|e]; [|reflexivity].
  rewrite bind_run, Hm, bind_run, Hf, bind_run, Hs, Hi. cbn.
  now rewrite !app_nil_r.
Qed.

Lemma gen_privesc_findings_no_nodes (graph : Graph) :
  nodes graph = [] -> gen_privesc_findings graph = Ok [].
Proof.
  intros Hnodes. unfold gen_privesc_findings, privesc_node_path_list.
  rewrite Hnodes. reflexivity.
Qed.

(** X7: _can_call_without_mfa over two lists of actions put together is
    the call over the first list followed, unless that answered True, by
    the call over the second: the queries, what they write and what they
    raise come in this order, and more actions never turn True into
    False. *)
Theorem can_call_without_mfa_app (node : Node) (actions more : list string)
    (w : World Cache) :
  _can_call_without_mfa node (actions ++ more) w
  = (_can_call_without_mfa node actions
     ≫= fun found : bool =>
          if found then mret true else _can_call_without_mfa node more) w.
Proof.
  revert w. induction actions as [|action rest IH]; intros w; [reflexivity|].
  cbn [app _can_call_without_mfa]. rewrite !bind_run. unfold query.
  destruct (local_check_authorization_handling_mfa node action "*" ∅)
    as [[auth needmfa]|e]; [|reflexivity].
  destruct (auth && negb needmfa); [reflexivity|].
  rewrite IH, bind_run. reflexivity.
Qed.

(** X8: gen_report raises in two cases only: the exception of
    gen_all_findings, which comes first, or, when the findings were
    generated, KeyError for a metadata without 'account_id'. *)
Theorem gen_report_raises_iff (w : World Cache) (e : exn) :
  fst (gen_report w) = Raise e <->
  fst (gen_all_findings (w_graph w) w) = Raise e
  \/ (returns (fst (gen_all_findings (w_graph w) w)) = true
      /\ metadata (w_graph w) !! "account_id" = None
      /\ e = KeyError "account_id").
Proof.
  rewrite gen_report_fst.
  destruct (fst (gen_all_findings (w_graph w) w)) as [findings|e'].
  - destruct (metadata (w_graph w) !! "account_id") as [account|]; simpl.
    + split; [discriminate | intros [H | (_ & H & _)]; discriminate].
    + split.
      * intros H. injection H as <-. right. auto.
      * intros [H | (_ & _ & ->)]; [discriminate | reflexivity].
  - simpl. split.
    + intros H. injection H as <-. left. reflexivity.
    + intros [H | (H & _)]; [injection H as <-; reflexivity | discriminate].
Qed.

(** X3: Every finding is titled in the singular when it is about one
    principal and in the plural when it is about more than one; the Lambda
    finding has severity 'Medium' and the CloudFormation finding 'Low'. *)
Theorem finding_titles_follow_count (graph : Graph) (w : World Cache) :
  (forall l f, gen_privesc_findings graph = Ok l -> In f l ->
     title f = if (1 <? length (escalating_nodes graph))%nat
               then "IAM Principals Can Escalate Privileges"
               else "IAM Principal Can Escalate Privileges")
  /\ (forall users l f,
        fst (mfa_affected_users graph w) = Ok users ->
        fst (gen_mfa_actions_findings graph w) = Ok l -> In f l ->
        title f = if (1 <? length users)%nat
                  then "Administrative IAM Users Can Call Sensitive Actions Without MFA"
                  else "Administrative IAM User Can Call Sensitive Actions Without MFA")
  /\ (forall roles l f,
        fst (function_affected_roles graph w) = Ok roles ->
        fst (gen_overprivileged_function_findings graph w) = Ok l -> In f l ->
        severity f = "Medium"
        /\ title f = if (1 <? length roles)%nat
                     then "IAM Roles Available to Lambda Functions Have Administrative Privileges"
                     else "IAM Role Available to Lambda Functions Has Administrative Privileges")
  /\ (forall f, In f (gen_overprivileged_instance_profile_findings graph) ->
     title f = if (1 <? length (instance_profile_affected_roles graph))%nat
               then "Instance Profiles Have Administrator Privileges"
               else "Instance Profile Has Administrator Privileges")
  /\ (forall roles l f,
        fst (stack_affected_roles graph w) = Ok roles ->
        fst (gen_overprivileged_stack_findings graph w) = Ok l -> In f l ->
        severity f = "Low"
        /\ title f = if (1 <? length roles)%nat
                     then "IAM Roles Available to CloudFormation Stacks Have Administrative Privileges"
                     else "IAM Role Available to CloudFormation Stacks Has Administrative Privileges").
Proof.
  rewrite mfa_affected_users_fst, function_affected_roles_fst,
    stack_affected_roles_fst, gen_mfa_actions_findings_fst,
    gen_overprivileged_function_findings_fst, gen_overprivileged_stack_findings_fst.
  split; [|split; [|split; [|split]]].
  - intros l f Hl Hf.
    destruct (gen_privesc_findings_titles graph l f Hl Hf) as (body & ->).
    destruct (1 <? length (escalating_nodes graph))%nat; reflexivity.
  - intros users l f -> Hl Hf. injection Hl as <-.
    destruct (about_titles mfa_finding _ f Hf) as (body & ->).
    destruct (1 <? length users)%nat; reflexivity.
  - intros roles l f -> Hl Hf. injection Hl as <-.
    destruct (about_titles function_finding _ f Hf) as (body & ->).
    split; [reflexivity|].
    destruct (1 <? length roles)%nat; reflexivity.
  - intros f Hf.
    destruct (finding_list_titles instance_profile_finding _ f Hf) as (body & ->).
    destruct (1 <? length (instance_profile_affected_roles graph))%nat; reflexivity.
  - intros roles l f -> Hl Hf. injection Hl as <-.
    destruct (about_titles stack_finding _ f Hf) as (body & ->).
    split; [reflexivity|].
    destruct (1 <? length roles)%nat; reflexivity.
Qed.

(** X2: gen_all_findings returns the findings of its five calls in the order
    of the calls: privilege escalation, MFA, Lambda, instance profile,
    CloudFormation, so that the severities are a subsequence of High,
    Medium, Medium, High, Low.  It raises what the first call that raises
    has raised, the calls taken in the same order. *)
Theorem findings_come_in_call_order (graph : Graph) (w : World Cache) :
  (forall l, fst (gen_all_findings graph w) = Ok l ->
     exists privesc mfa function stack,
       gen_privesc_findings graph = Ok privesc
       /\ fst (gen_mfa_actions_findings graph w) = Ok mfa
       /\ fst (gen_overprivileged_function_findings graph w) = Ok function
       /\ fst (gen_overprivileged_stack_findings graph w) = Ok stack
       /\ l = privesc ++ mfa ++ function
                ++ gen_overprivileged_instance_profile_findings graph ++ stack
       /\ sublist (map severity l) ["High"; "Medium"; "Medium"; "High"; "Low"])
  /\ (forall e, fst (gen_all_findings graph w) = Raise e <->
        gen_privesc_findings graph = Raise e
        \/ (returns (gen_privesc_findings graph) = true
            /\ fst (gen_mfa_actions_findings graph w) = Raise e)
        \/ (returns (gen_privesc_findings graph) = true
            /\ returns (fst (gen_mfa_actions_findings graph w)) = true
            /\ fst (gen_overprivileged_function_findings graph w) = Raise e)
        \/ (returns (gen_privesc_findings graph) = true
            /\ returns (fst (gen_mfa_actions_findings graph w)) = true
            /\ returns (fst (gen_overprivileged_function_findings graph w)) = true
            /\ fst (gen_overprivileged_stack_findings graph w) = Raise e)).
Proof.
  rewrite gen_all_findings_fst, gen_mfa_actions_findings_fst,
    gen_overprivileged_function_findings_fst, gen_overprivileged_stack_findings_fst.
  split.
  - intros l.
    destruct (gen_privesc_findings graph) as [privesc|e1] eqn:Hp; [|discriminate].
    destruct (collectR mfa_keep (nodes graph) []) as [users|e2]; [|discriminate].
    destruct (collectR (service_keep "lambda.amazonaws.com") (nodes graph) [])
      as [lambda_roles|e3]; [|discriminate].
    destruct (collectR (service_keep "cloudformation.amazonaws.com") (nodes graph) [])
      as [stack_roles|e4]; [|discriminate].
    intros H. injection H as <-.
    exists privesc, (about mfa_finding users), (about function_finding lambda_roles),
      (about stack_finding stack_roles).
    repeat (split; [reflexivity|]).
    destruct (gen_privesc_findings_shape graph privesc Hp) as [-> | (? & ? & ->)];
      destruct (about_shape mfa_finding users) as [-> | (? & ? & ->)];
      destruct (about_shape function_finding lambda_roles) as [-> | (? & ? & ->)];
      destruct (finding_list_cases instance_profile_finding
                  (instance_profile_affected_roles graph)) as [Hi | (? & ? & Hi)];
      destruct (about_shape stack_finding stack_roles) as [-> | (? & ? & ->)];
      cbv zeta in Hi;
      unfold gen_overprivileged_instance_profile_findings;
      cbv zeta; rewrite Hi; cbn; subsequence.
  - intros e.
    destruct (gen_privesc_findings graph) as [privesc|e1].
    2: { cbn [returns]. split; [intros H; left; exact H|].
         intros [H|[(H0 & _)|[(H0 & _)|(H0 & _)]]];
           [exact H | discriminate..]. }
    destruct (collectR mfa_keep (nodes graph) []) as [users|e2].
    2: { cbn [returns]. split; [intros H; right; left; split; [reflexivity | exact H]|].
         intros [H|[(_ & H)|[(_ & H1 & _)|(_ & H1 & _)]]];
           [discriminate | exact H | discriminate..]. }
    destruct (collectR (service_keep "lambda.amazonaws.com") (nodes graph) [])
      as [lambda_roles|e3].
    2: { cbn [returns]. split.
         - intros H. right. right. left. repeat split. exact H.
         - intros [H|[(_ & H)|[(_ & _ & H)|(_ & _ & H2 & _)]]];
             [discriminate | discriminate | exact H | discriminate]. }
    destruct (collectR (service_keep "cloudformation.amazonaws.com") (nodes graph) [])
      as [stack_roles|e4]; cbn [returns]; split.
    + discriminate.
    + intros [H|[(_ & H)|[(_ & _ & H)|(_ & _ & _ & H)]]]; discriminate.
    + intros H. right. right. right. repeat split. exact H.
    + intros [H|[(_ & H)|[(_ & _ & H)|(_ & _ & _ & H)]]];
        [discriminate | discriminate | discriminate | exact H].
Qed.

(** X4: The order of graph.nodes matters only for the order of the lines of a
    description: over a permutation of the nodes each of the four
    administrator findings, when it is returned, is returned again, is
    about the same principals and is present, and titled, in the same
    way. *)
Theorem node_order_changes_no_finding (g1 g2 : Graph) (w : World Cache) :
  Permutation (nodes g1) (nodes g2) ->
  (forall users1 l1,
     fst (mfa_affected_users g1 w) = Ok users1 ->
     fst (gen_mfa_actions_findings g1 w) = Ok l1 ->
     exists users2 l2,
       fst (mfa_affected_users g2 w) = Ok users2
       /\ fst (gen_mfa_actions_findings g2 w) = Ok l2
       /\ Permutation users1 users2 /\ map title l1 = map title l2)
  /\ (forall roles1 l1,
     fst (function_affected_roles g1 w) = Ok roles1 ->
     fst (gen_overprivileged_function_findings g1 w) = Ok l1 ->
     exists roles2 l2,
       fst (function_affected_roles g2 w) = Ok roles2
       /\ fst (gen_overprivileged_function_findings g2 w) = Ok l2
       /\ Permutation roles1 roles2 /\ map title l1 = map title l2)
  /\ (Permutation (instance_profile_affected_roles g1)
        (instance_profile_affected_roles g2)
   /\ map title (gen_overprivileged_instance_profile_findings g1)
      = map title (gen_overprivileged_instance_profile_findings g2))
  /\ (forall roles1 l1,
     fst (stack_affected_roles g1 w) = Ok roles1 ->
     fst (gen_overprivileged_stack_findings g1 w) = Ok l1 ->
     exists roles2 l2,
       fst (stack_affected_roles g2 w) = Ok roles2
       /\ fst (gen_overprivileged_stack_findings g2 w) = Ok l2
       /\ Permutation roles1 roles2 /\ map title l1 = map title l2)
  /\ returns (fst (gen_mfa_actions_findings g1 w))
     = returns (fst (gen_mfa_actions_findings g2 w))
  /\ returns (fst (gen_overprivileged_function_findings g1 w))
     = returns (fst (gen_overprivileged_function_findings g2 w))
  /\ returns (fst (gen_overprivileged_stack_findings g1 w))
     = returns (fst (gen_overprivileged_stack_findings g2 w)).
Proof.
  intros Hperm.
  rewrite !mfa_affected_users_fst, !function_affected_roles_fst,
    !stack_affected_roles_fst, !gen_mfa_actions_findings_fst,
    !gen_overprivileged_function_findings_fst,
    !gen_overprivileged_stack_findings_fst.
  assert (Hloop : forall (keep : Node -> Result bool) (mk : bool -> string -> Finding),
    (forall plural body1 body2, title (mk plural body1) = title (mk plural body2)) ->
    forall affected1 l1,
      collectR keep (nodes g1) [] = Ok affected1 ->
      match collectR keep (nodes g1) [] with
      | Ok affected => Ok (about mk affected)
      | Raise e => Raise e
      end = Ok l1 ->
      exists affected2 l2,
        collectR keep (nodes g2) [] = Ok affected2
        /\ match collectR keep (nodes g2) [] with
           | Ok affected => Ok (about mk affected)
           | Raise e => Raise e
           end = Ok l2
        /\ Permutation affected1 affected2 /\ map title l1 = map title l2).
  { intros keep mk Htitle affected1 l1 H1 Hl. rewrite H1 in Hl. injection Hl as <-.
    destruct (collectR_permutation keep _ _ _ Hperm H1) as (affected2 & H2 & Hp).
    exists affected2, (about mk affected2). rewrite H2.
    split; [reflexivity|]. split; [reflexivity|]. split; [exact Hp|].
    now apply about_permutation. }
  assert (Hret : forall (keep : Node -> Result bool) (mk : bool -> string -> Finding),
    returns match collectR keep (nodes g1) [] with
            | Ok affected => Ok (about mk affected)
            | Raise e => Raise e
            end
    = returns match collectR keep (nodes g2) [] with
              | Ok affected => Ok (about mk affected)
              | Raise e => Raise e
              end).
  { intros keep mk.
    destruct (collectR keep (nodes g1) []) as [a1|e1] eqn:H1;
      destruct (collectR keep (nodes g2) []) as [a2|e2] eqn:H2; try reflexivity.
    - destruct (collectR_permutation keep _ _ _ Hperm H1) as (a & Ha & _).
      congruence.
    - destruct (collectR_permutation keep _ _ _ (Permutation_sym Hperm) H2)
        as (a & Ha & _).
      congruence. }
  split; [apply Hloop; reflexivity|]. split; [apply Hloop; reflexivity|].
  split; [|split; [apply Hloop; reflexivity|]].
  - assert (Hi : Permutation (instance_profile_affected_roles g1)
                   (instance_profile_affected_roles g2)).
    { unfold instance_profile_affected_roles. rewrite !collect_filter.
      now apply filter_permutation. }
    split; [exact Hi|].
    apply (finding_list_permutation instance_profile_finding _ _ Hi). reflexivity.
  - split; [apply Hret|]. split; apply Hret.
Qed.

(** X5: The four administrator findings look at the administrators only: two
    graphs with the same administrative nodes (in the same order) get the
    same MFA, Lambda, instance-profile and CloudFormation findings, with
    the same queries made, whatever their other nodes, edges and metadata
    are. *)
Theorem admin_findings_read_admins_only (g1 g2 : Graph) (w : World Cache) :
  List.filter is_admin (nodes g1) = List.filter is_admin (nodes g2) ->
  gen_mfa_actions_findings g1 w = gen_mfa_actions_findings g2 w
  /\ gen_overprivileged_function_findings g1 w
     = gen_overprivileged_function_findings g2 w
  /\ gen_overprivileged_instance_profile_findings g1
     = gen_overprivileged_instance_profile_findings g2
  /\ gen_overprivileged_stack_findings g1 w
     = gen_overprivileged_stack_findings g2 w.
Proof.
  intros Hadmins.
  unfold gen_mfa_actions_findings, gen_overprivileged_function_findings,
    gen_overprivileged_instance_profile_findings, gen_overprivileged_stack_findings.
  cbv zeta. rewrite !bind_run.
  rewrite !mfa_affected_users_admins, !function_affected_roles_admins,
    !stack_affected_roles_admins, !instance_profile_affected_roles_admins.
  rewrite Hadmins. repeat split; reflexivity.
Qed.

(** X6: In a graph without administrative nodes only the privilege-escalation
    finding can appear: the other four generators return the empty list
    without a query, and gen_all_findings returns (or raises) what
    gen_privesc_findings does. *)
Theorem no_admin_only_privesc (graph : Graph) (w : World Cache) :
  (forall node, In node (nodes graph) -> is_admin node = false) ->
  gen_mfa_actions_findings graph w = (Ok [], w)
  /\ gen_overprivileged_function_findings graph w = (Ok [], w)
  /\ gen_overprivileged_instance_profile_findings graph = []
  /\ gen_overprivileged_stack_findings graph w = (Ok [], w)
  /\ gen_all_findings graph w = (gen_privesc_findings graph, w).
Proof. apply gen_all_findings_no_admin. Qed.

(** *** Printing *)

Lemma print_findings_acc (findings : list Finding) (stdout : string) :
  fold_left (fun stdout finding => print (finding_block finding) stdout)
    findings stdout
  = stdout +:+ concat_lines (fun finding => finding_block finding +:+ nl) findings.
Proof.
  revert stdout. induction findings as [|finding rest IH]; intros stdout; simpl.
  - now rewrite append_empty_r.
  - rewrite IH. unfold print. now rewrite !append_assoc.
Qed.

Lemma print_report_run (report : Report.t) (stdout : string) :
  print_report report stdout
  = stdout +:+ report_header report
    +:+ report_body (Report.findings report) +:+ report_footer.
Proof.
  unfold print_report, report_header, report_footer, report_body, print.
  destruct (Report.findings report) as [|finding rest] eqn:Hfindings.
  - cbn [length Nat.eqb]. rewrite !append_assoc. reflexivity.
  - cbn [length Nat.eqb]. rewrite print_findings_acc, !append_assoc. reflexivity.
Qed.

(** X9: print_report only adds to what is on the terminal: the header, then
    'None found.' for a report without findings and otherwise one Markdown
    section per finding in the order of the report, then the footer. *)
Theorem print_report_output (report : Report.t) (stdout : string) :
  print_report report stdout
  = stdout +:+ report_header report
    +:+ match Report.findings report with
        | [] => nl +:+ "None found." +:+ nl +:+ nl
        | _ :: _ =>
            concat_lines (fun finding => finding_block finding +:+ nl)
              (Report.findings report)
        end
    +:+ nl +:+ rule +:+ nl.
Proof.
  rewrite print_report_run. unfold report_body, report_footer.
  destruct (Report.findings report); reflexivity.
Qed.

(** X11: gen_findings_and_print prints the Markdown report only for the
    formatting 'text'; every other formatting, 'json' or not, prints the
    JSON dump of the report's dictionary followed by a newline. *)
Theorem gen_findings_and_print_formats (formatting : string) (w : World Cache)
    (stdout : string) (report : Report.t) :
  fst (gen_report w) = Ok report ->
  (formatting = "text" ->
     gen_findings_and_print formatting w stdout
     = (Ok tt, snd (gen_report w), print_report report stdout))
  /\ (formatting <> "text" ->
     gen_findings_and_print formatting w stdout
     = (Ok tt, snd (gen_report w),
        stdout +:+ json_dumps (as_dictionary report) 4 +:+ nl)).
Proof.
  intros Hreport. rewrite gen_findings_and_print_run, Hreport. split.
  - intros ->. reflexivity.
  - intros Hne. apply String.eqb_neq in Hne. rewrite Hne. reflexivity.
Qed.

(** X12: A graph without nodes, whatever its edges: no finding is generated
    and no query made, gen_report returns a report with an empty list of
    findings, and the text report says 'None found.' between header and
    footer. *)
Theorem no_nodes_none_found (w : World Cache) (account stdout : string) :
  nodes (w_graph w) = [] ->
  metadata (w_graph w) !! "account_id" = Some account ->
  let report := Report.make account (w_clock w) [] report_source in
  gen_all_findings (w_graph w) w = (Ok [], w)
  /\ gen_report w = (Ok report, w)
  /\ gen_findings_and_print "text" w stdout
     = (Ok tt, w,
        stdout +:+ report_header report
        +:+ nl +:+ "None found." +:+ nl +:+ nl +:+ report_footer).
Proof.
  intros Hnodes Hacct report.
  assert (Hall : gen_all_findings (w_graph w) w = (Ok [], w)).
  { destruct (gen_all_findings_no_admin (w_graph w) w) as (_ & _ & _ & _ & ->).
    - rewrite Hnodes. intros node [].
    - now rewrite (gen_privesc_findings_no_nodes _ Hnodes). }
  assert (Hrun : gen_report w = (Ok report, w)).
  { rewrite gen_report_run, Hall, Hacct. reflexivity. }
  split; [exact Hall|]. split; [exact Hrun|].
  rewrite gen_findings_and_print_run, Hrun. cbn [fst snd String.eqb].
  rewrite print_report_run. reflexivity.
Qed.

End FindRisks.

(** ** The authorization engine *)

Section Engine.

Import AuthorizationEngine.

Lemma deny_applies_intro (st : Statement) (action resource : string)
    (context : gmap string string) :
  st_effect st = Deny ->
  matches_action st action = true ->
  matches_resource st resource = true ->
  conditions_satisfied context st = true ->
  deny_applies action resource context st = true.
Proof.
  intros Heff Hact Hres Hcond. unfold deny_applies, is_deny.
  now rewrite Heff, Hact, Hres, Hcond.
Qed.

(** C2: whenever an applicable statement is an explicit Deny whose action
    and resource patterns match and whose conditions are satisfied, the
    identity evaluation is ExplicitDeny, and what the risk layer receives
    from local_check_authorization_handling_mfa is not authorized,
    whatever the principal's other statements allow. *)
Theorem C2_explicit_deny_dominates (principal : Node) (action resource : string)
    (context : gmap string string) (st : Statement) :
  In st (applicable_statements principal) ->
  st_effect st = Deny ->
  matches_action st action = true ->
  matches_resource st resource = true ->
  conditions_satisfied context st = true ->
  outcome (evaluate_identity principal action resource context) = ExplicitDeny
  /\ outcome (evaluate_identity principal action resource context) <> ExplicitAllow
  /\ fst (local_check_authorization_handling_mfa principal action resource context)
     = false.
Proof.
  intros Hin Heff Hact Hres Hcond.
  assert (Hdeny : existsb (deny_applies action resource context)
                    (applicable_statements principal) = true).
  { apply existsb_exists. exists st. split; [exact Hin|].
    now apply deny_applies_intro. }
  unfold local_check_authorization_handling_mfa, evaluate_identity.
  rewrite Hdeny. simpl. repeat split; discriminate.
Qed.

End Engine.


(** ** util/boto_tools.py *)

(** C9: with a profile argument get_session never returns a session.  It
    raises what boto3 raises when it builds the session for the profile;
    once the session is built, the read of the local name stsclient, which
    that branch never binds, raises UnboundLocalError, a NameError. *)
Theorem C9_get_session_profile_raises (boto3 : BotoTools.Boto3)
    (profile : string) (role_arg : option string) :
  BotoTools.get_session boto3 (Some profile) role_arg
  = Raise match BotoTools.Session_init boto3 (Some profile) None with
          | Ok _ => UnboundLocalError "stsclient"
          | Raise e => e
          end
  /\ is_NameError (UnboundLocalError "stsclient") = true.
Proof.
  unfold BotoTools.get_session.
  destruct (BotoTools.Session_init boto3 (Some profile) None) as [session|e];
    split; reflexivity.
Qed.

(** X13: get_session without a profile returns a session exactly when every
    boto3 call of its branch went through.  With a role, the session is the
    one built from the response of assume_role (session name 'PMapper'),
    and the identity checked is that of the client assume_role was called
    on; without, the session is the default one and the identity checked
    is that of its own client. *)
Theorem get_session_without_profile_returns_iff (boto3 : BotoTools.Boto3)
    (role_arg : option string) (session : BotoTools.Session) :
  BotoTools.get_session boto3 None role_arg = Ok session <->
  match role_arg with
  | Some role =>
      exists stsclient token,
        BotoTools.boto3_client boto3 "sts" = Ok stsclient
        /\ BotoTools.Client_assume_role boto3 stsclient role "PMapper" = Ok token
        /\ BotoTools.Session_init boto3 None (Some token) = Ok session
        /\ BotoTools.Client_get_caller_identity boto3 stsclient = Ok tt
  | None =>
      exists stsclient,
        BotoTools.Session_init boto3 None None = Ok session
        /\ BotoTools.Session_client boto3 session "sts" = Ok stsclient
        /\ BotoTools.Client_get_caller_identity boto3 stsclient = Ok tt
  end.
Proof.
  unfold BotoTools.get_session. destruct role_arg as [role|]; simpl.
  - destruct (BotoTools.boto3_client boto3 "sts") as [stsclient|e1]; simpl.
    + destruct (BotoTools.Client_assume_role boto3 stsclient role "PMapper")
        as [token|e2] eqn:Hrole; simpl.
      * destruct (BotoTools.Session_init boto3 None (Some token))
          as [result|e3] eqn:Hinit; simpl.
        -- destruct (BotoTools.Client_get_caller_identity boto3 stsclient)
             as [[]|e4] eqn:Hid; simpl.
           ++ split.
              ** intros H. injection H as <-. exists stsclient, token. auto.
              ** intros (c & t & Hc & Ht & Hs & _).
                 injection Hc as <-. rewrite Hrole in Ht. injection Ht as <-.
                 rewrite Hinit in Hs. exact Hs.
           ++ split; [discriminate|].
              intros (c & t & Hc & _ & _ & Hi). injection Hc as <-.
              rewrite Hid in Hi. discriminate.
        -- split; [discriminate|].
           intros (c & t & Hc & Ht & Hs & _). injection Hc as <-.
           rewrite Hrole in Ht. injection Ht as <-.
           rewrite Hinit in Hs. discriminate.
      * split; [discriminate|].
        intros (c & t & Hc & Ht & _). injection Hc as <-.
        rewrite Hrole in Ht. discriminate.
    + split; [discriminate | intros (c & t & Hc & _); discriminate].
  - destruct (BotoTools.Session_init boto3 None None) as [result|e1]; simpl.
    + destruct (BotoTools.Session_client boto3 result "sts")
        as [stsclient|e2] eqn:Hclient; simpl.
      * destruct (BotoTools.Client_get_caller_identity boto3 stsclient)
          as [[]|e3] eqn:Hid; simpl.
        -- split.
           ++ intros H. injection H as <-. exists stsclient. auto.
           ++ intros (c & Hs & _). exact Hs.
        -- split; [discriminate|].
           intros (c & Hs & Hc & Hi). injection Hs as <-.
           rewrite Hclient in Hc. injection Hc as <-.
           rewrite Hid in Hi. discriminate.
      * split; [discriminate|].
        intros (c & Hs & Hc & _). injection Hs as <-.
        rewrite Hclient in Hc. discriminate.
    + split; [discriminate | intros (c & Hs & _); discriminate].
Qed.

(** X14: Only the profile branch of get_session reads an unbound name: without
    a profile, and with a boto3 none of whose calls raises, get_session
    returns a session, with or without a role. *)
Theorem get_session_without_profile_returns (boto3 : BotoTools.Boto3)
    (role_arg : option string) :
  BotoTools.never_raises boto3 ->
  exists session, BotoTools.get_session boto3 None role_arg = Ok session.
Proof.
  intros (Hinit & Hclient & Hsclient & Hrole & Hid).
  unfold BotoTools.get_session. destruct role_arg as [role|]; simpl.
  - specialize (Hclient "sts").
    destruct (BotoTools.boto3_client boto3 "sts") as [stsclient|]; [|discriminate].
    simpl. specialize (Hrole stsclient role "PMapper").
    destruct (BotoTools.Client_assume_role boto3 stsclient role "PMapper")
      as [token|]; [|discriminate].
    simpl. specialize (Hinit None (Some token)).
    destruct (BotoTools.Session_init boto3 None (Some token)) as [result|];
      [|discriminate].
    simpl. specialize (Hid stsclient).
    destruct (BotoTools.Client_get_caller_identity boto3 stsclient); [|discriminate].
    simpl. eexists. reflexivity.
  - specialize (Hinit None None).
    destruct (BotoTools.Session_init boto3 None None) as [result|]; [|discriminate].
    simpl. specialize (Hsclient result "sts").
    destruct (BotoTools.Session_client boto3 result "sts") as [stsclient|];
      [|discriminate].
    simpl. specialize (Hid stsclient).
    destruct (BotoTools.Client_get_caller_identity boto3 stsclient); [|discriminate].
    simpl. eexists. reflexivity.
Qed.

(** X15: assume_role given a role raises NameError for the name profile_arg,
    whatever the role and whatever boto3 would have answered: the name is
    read before the session is built. *)
Theorem assume_role_with_role_raises (boto3 : BotoTools.Boto3) (role : string) :
  BotoTools.assume_role boto3 (Some role) = Raise (NameError "profile_arg")
  /\ is_NameError (NameError "profile_arg") = true.
Proof. split; reflexivity. Qed.

(** X16: assume_role never assumes a role: without an argument it does what
    get_session does without arguments, and a session it returns is the
    default session of boto3, returned for no role. *)
Theorem assume_role_returns_default_only (boto3 : BotoTools.Boto3) :
  BotoTools.assume_role boto3 None = BotoTools.get_session boto3 None None
  /\ (forall role_arg session,
        BotoTools.assume_role boto3 role_arg = Ok session ->
        role_arg = None
        /\ BotoTools.Session_init boto3 None None = Ok session).
Proof.
  split.
  - unfold BotoTools.assume_role, BotoTools.get_session. simpl.
    destruct (BotoTools.Session_init boto3 None None) as [result|]; [|reflexivity].
    simpl.
    destruct (BotoTools.Session_client boto3 result "sts") as [stsclient|];
      [|reflexivity].
    simpl.
    destruct (BotoTools.Client_get_caller_identity boto3 stsclient) as [[]|];
      reflexivity.
  - intros [role|] session; [discriminate|].
    unfold BotoTools.assume_role. simpl.
    destruct (BotoTools.Session_init boto3 None None) as [result|]; [|discriminate].
    simpl.
    destruct (BotoTools.Session_client boto3 result "sts") as [stsclient|];
      [|discriminate].
    simpl.
    destruct (BotoTools.Client_get_caller_identity boto3 stsclient) as [[]|];
      [|discriminate].
    simpl. intros H. injection H as <-. split; reflexivity.
Qed.


(** ** The definitions at work on the example account *)

Section Examples.

Import AuthorizationEngine.

Example glob_star :
  glob "iam:*" "iam:CreateUser" = true /\ glob "iam:*" "s3:GetObject" = false.
Proof. split; reflexivity. Qed.

Example glob_question_mark :
  glob "arn:aws:s3:::bucket/?" "arn:aws:s3:::bucket/a" = true
  /\ glob "arn:aws:s3:::bucket/?" "arn:aws:s3:::bucket/ab" = false
  /\ glob "arn:aws:s3:::bucket/?" "arn:aws:s3:::bucket/" = false.
Proof. repeat split; reflexivity. Qed.

Example mfa_flag :
  Example.local_check_authorization_handling_mfa Example.bob "sts:AssumeRole" "*" ∅ = Ok (true, true)
  /\ Example.local_check_authorization_handling_mfa Example.bob "sts:AssumeRole" "*"
       {[ mfa_key := "true" ]} = Ok (true, false).
Proof. split; vm_compute; reflexivity. Qed.

Example no_statement_implicit_deny :
  outcome (evaluate_identity Example.bob "s3:GetObject" "*" ∅) = ImplicitDeny.
Proof. vm_compute. reflexivity. Qed.

Example contains_examples :
  contains ":user/" (arn Example.alice) = true
  /\ contains ":role/" (arn Example.alice) = false
  /\ contains ":role/" (arn Example.erin) = true
  /\ contains EmptyString EmptyString = true.
Proof. repeat split; reflexivity. Qed.

Example mfa_users_of_example :
  fst (mfa_affected_users (list string) Example.local_check_authorization_handling_mfa
      Example.local_check_writes Example.graph Example.world)
  = Ok [Example.alice].
Proof. vm_compute. reflexivity. Qed.

Example instance_profile_roles_of_example :
  instance_profile_affected_roles Example.graph = [Example.ops].
Proof. vm_compute. reflexivity. Qed.

Example service_roles_of_example :
  fst (function_affected_roles (list string) Example.resource_policy_authorization
         Example.resource_policy_writes Example.get_account_id Example.graph Example.world)
  = Ok [Example.ops]
  /\ fst (stack_affected_roles (list string) Example.resource_policy_authorization
            Example.resource_policy_writes Example.get_account_id Example.graph Example.world)
     = Ok [].
Proof. split; vm_compute; reflexivity. Qed.

Example all_findings_of_example :
  match fst (gen_all_findings (list string) Example.local_check_authorization_handling_mfa
      Example.local_check_writes Example.resource_policy_authorization
      Example.resource_policy_writes Example.get_account_id Example.can_privesc
      Example.searchable_name Example.describe_edge Example.graph Example.world) with
  | Ok l => Some (map severity l)
  | Raise _ => None
  end = Some ["High"; "Medium"; "Medium"; "High"].
Proof. vm_compute. reflexivity. Qed.

(** What the queries of one report leave in the cache, in the order of the
    calls. *)
Example queries_of_example :
  w_cache (snd (gen_report (list string) Example.local_check_authorization_handling_mfa
      Example.local_check_writes Example.resource_policy_authorization
      Example.resource_policy_writes Example.get_account_id Example.can_privesc
      Example.searchable_name Example.describe_edge "1.0.0" Example.world))
  = ["arn:aws:iam::000000000000:user/alice iam:CreateUser";
     "arn:aws:iam::000000000000:role/ops lambda.amazonaws.com";
     "arn:aws:iam::000000000000:role/ops cloudformation.amazonaws.com"].
Proof. vm_compute. reflexivity. Qed.

(** An escalation reported without an edge makes [edge_list[-1]] raise. *)
Example privesc_without_edges_raises :
  gen_privesc_findings Example.can_privesc_without_edges Example.searchable_name
    Example.describe_edge Example.graph
  = Raise (IndexError "list index out of range").
Proof. vm_compute. reflexivity. Qed.

Example get_session_default :
  BotoTools.get_session Example.boto3 None None
  = Ok (BotoTools.mkSession None None).
Proof. reflexivity. Qed.

Example get_session_with_role :
  BotoTools.get_session Example.boto3 None (Some "arn:aws:iam::000000000000:role/ops")
  = Ok (BotoTools.mkSession None (Some "token")).
Proof. reflexivity. Qed.

Example assume_role_with_role :
  BotoTools.assume_role Example.boto3 (Some "arn:aws:iam::000000000000:role/ops")
  = Raise (NameError "profile_arg").
Proof. reflexivity. Qed.

Example print_report_none_found :
  print_report Example.isoformat
    (Report.make "000000000000" 0 [] "Principal Mapper") EmptyString
  = rule +:+ nl +:+ "# Principal Mapper Findings" +:+ nl +:+ nl
    +:+ "Findings identified in AWS account 000000000000" +:+ nl +:+ nl
    +:+ "Date and Time: 2019-11-01T00:00:00+00:00" +:+ nl +:+ nl
    +:+ "Principal Mapper" +:+ nl +:+ nl
    +:+ "None found." +:+ nl +:+ nl +:+ nl
    +:+ rule +:+ nl.
Proof. vm_compute. reflexivity. Qed.

Lemma example_paths_nonempty : paths_nonempty Example.can_privesc Example.graph.
Proof.
  intros node Hin Hesc. simpl in Hin.
  destruct Hin as [<-|[<-|[<-|[<-|[]]]]]; vm_compute in Hesc |- *; congruence.
Defined.

Lemma example_boto3_never_raises : BotoTools.never_raises Example.boto3.
Proof. repeat split. Defined.

(** *** The claims on the example account *)

Lemma C2_explicit_deny_dominates_witness :
  outcome (evaluate_identity Example.carol "IAM:createuser" "*" ∅) = ExplicitDeny
  /\ outcome (evaluate_identity Example.carol "IAM:createuser" "*" ∅) <> ExplicitAllow
  /\ fst (AuthorizationEngine.local_check_authorization_handling_mfa
            Example.carol "IAM:createuser" "*" ∅) = false.
Proof.
  apply (C2_explicit_deny_dominates Example.carol "IAM:createuser" "*" ∅
           Example.deny_iam).
  - simpl. auto.
  - reflexivity.
  - reflexivity.
  - reflexivity.
  - reflexivity.
Defined.





Lemma C4_privesc_findings_witness :
  paths_nonempty Example.can_privesc Example.graph
  /\ exists f,
       gen_privesc_findings Example.can_privesc Example.searchable_name Example.describe_edge Example.graph = Ok [f]
       /\ severity f = "High"
       /\ description f
          = privesc_preamble
            +:+ concat_lines
                  (privesc_entry Example.can_privesc Example.searchable_name
                     Example.describe_edge Example.graph)
                  [Example.bob].
Proof.
  split; [exact example_paths_nonempty|].
  destruct (C4_privesc_findings Example.can_privesc Example.searchable_name Example.describe_edge Example.graph example_paths_nonempty)
    as (_ & _ & Hone & _).
  apply Hone. vm_compute. discriminate.
Defined.

Lemma C5_instance_profile_findings_witness :
  exists f,
    gen_overprivileged_instance_profile_findings Example.searchable_name
      Example.graph = [f]
    /\ severity f = "High"
    /\ description f
       = instance_profile_preamble +:+ "* arn:aws:iam::000000000000:role/ops" +:+ nl.
Proof.
  destruct (C5_instance_profile_findings Example.searchable_name Example.graph)
    as (_ & _ & Hone).
  destruct Hone as (f & Hf & Hsev & Hdesc); [vm_compute; discriminate|].
  exists f. split; [exact Hf|]. split; [exact Hsev|].
  rewrite Hdesc. vm_compute. reflexivity.
Defined.

(** For bob, who needs MFA to assume a role, the answer is False. *)
Lemma C6_can_call_without_mfa_witness :
  fst (_can_call_without_mfa (list string) Example.local_check_authorization_handling_mfa
      Example.local_check_writes Example.bob
         ["iam:CreateUser"; "sts:AssumeRole"] Example.world)
  = Ok false.
Proof.
  apply (C6_can_call_without_mfa (list string) Example.local_check_authorization_handling_mfa
      Example.local_check_writes Example.bob
           ["iam:CreateUser"; "sts:AssumeRole"] Example.world).
  repeat constructor; eexists; eexists; (split; [vm_compute; reflexivity|]);
    reflexivity.
Defined.

(** No action is authorized without MFA for mallory, since the engine
    raises about her; the call raises and does not return False. *)
Lemma C6_can_call_without_mfa_counterexample :
  Forall
    (fun action => Example.local_check_raising Example.mallory action "*" ∅ <> Ok (true, false))
    ["iam:CreateUser"; "sts:AssumeRole"]
  /\ fst (_can_call_without_mfa (list string) Example.local_check_raising
      Example.local_check_writes Example.mallory
            ["iam:CreateUser"; "sts:AssumeRole"]
            (Example.world_of Example.graph_with_mallory))
     = Raise (ValueError "malformed policy").
Proof.
  split; [|vm_compute; reflexivity].
  repeat constructor; vm_compute; discriminate.
Qed.



Lemma C8_gen_findings_to_file_raises_witness :
  fst (gen_findings_to_file (list string) Example.local_check_authorization_handling_mfa
      Example.local_check_writes Example.resource_policy_authorization
      Example.resource_policy_writes Example.get_account_id Example.can_privesc
      Example.searchable_name Example.describe_edge "1.0.0"
      (list (string * string)) Example.as_dictionary Example.json_dumps Example.os_path_abspath "json" "findings.json" Example.world)
  = Raise (TypeError "'str' object is not callable")
  /\ w_files (snd (gen_findings_to_file (list string) Example.local_check_authorization_handling_mfa
      Example.local_check_writes Example.resource_policy_authorization
      Example.resource_policy_writes Example.get_account_id Example.can_privesc
      Example.searchable_name Example.describe_edge "1.0.0"
      (list (string * string)) Example.as_dictionary Example.json_dumps Example.os_path_abspath "json" "findings.json" Example.world))
     = ∅.
Proof.
  destruct (C8_gen_findings_to_file_raises (list string) Example.local_check_authorization_handling_mfa
      Example.local_check_writes Example.resource_policy_authorization
      Example.resource_policy_writes Example.get_account_id Example.can_privesc
      Example.searchable_name Example.describe_edge "1.0.0"
      (list (string * string)) Example.as_dictionary Example.json_dumps Example.os_path_abspath "json" "findings.json" Example.world)
    as (Hrun & Hfiles).
  split.
  - rewrite Hrun. vm_compute. reflexivity.
  - rewrite Hfiles. reflexivity.
Defined.

(** Without the 'account_id' entry the subscript in gen_report raises, and
    gen_findings_to_file passes that KeyError on: no TypeError is raised. *)
Lemma C8_gen_findings_to_file_raises_counterexample :
  fst (gen_findings_to_file (list string) Example.local_check_authorization_handling_mfa
      Example.local_check_writes Example.resource_policy_authorization
      Example.resource_policy_writes Example.get_account_id Example.can_privesc
      Example.searchable_name Example.describe_edge "1.0.0"
      (list (string * string)) Example.as_dictionary Example.json_dumps Example.os_path_abspath "json" "findings.json"
         (Example.world_of Example.graph_without_account))
  = Raise (KeyError "account_id").
Proof. vm_compute. reflexivity. Qed.

Lemma C9_get_session_profile_raises_witness :
  BotoTools.get_session Example.boto3 (Some "dev") None
  = Raise (UnboundLocalError "stsclient").
Proof.
  destruct (C9_get_session_profile_raises Example.boto3 "dev" None) as (Hraise & _).
  exact Hraise.
Defined.

(** When boto3 itself rejects the profile, that is the exception raised,
    and it is no NameError. *)
Lemma C9_get_session_profile_raises_counterexample :
  BotoTools.get_session Example.boto3_without_profiles (Some "dev") None
  = Raise (ExternalError "ProfileNotFound")
  /\ is_NameError (ExternalError "ProfileNotFound") = false.
Proof. split; reflexivity. Qed.

Lemma C10_findings_bounded_witness :
  exists l,
    fst (gen_all_findings (list string) Example.local_check_authorization_handling_mfa
      Example.local_check_writes Example.resource_policy_authorization
      Example.resource_policy_writes Example.get_account_id Example.can_privesc
      Example.searchable_name Example.describe_edge Example.graph Example.world) = Ok l
    /\ (length l <= 5)%nat /\ Forall known_severity l.
Proof.
  destruct (C10_findings_bounded (list string) Example.local_check_authorization_handling_mfa
      Example.local_check_writes Example.resource_policy_authorization
      Example.resource_policy_writes Example.get_account_id Example.can_privesc
      Example.searchable_name Example.describe_edge Example.graph Example.world)
    as (_ & _ & _ & _ & _ & Hall & Hreturns).
  destruct Hreturns as (l & Hl);
    [exact example_paths_nonempty | vm_compute; reflexivity..|].
  exists l. split; [exact Hl | exact (Hall l Hl)].
Defined.

(** *** The further properties on the example account *)

Lemma finding_titles_follow_count_witness :
  exists f,
    fst (gen_mfa_actions_findings (list string) Example.local_check_authorization_handling_mfa
      Example.local_check_writes Example.searchable_name Example.graph Example.world) = Ok [f]
    /\ title f = "Administrative IAM User Can Call Sensitive Actions Without MFA".
Proof.
  destruct (finding_titles_follow_count (list string) Example.local_check_authorization_handling_mfa
      Example.local_check_writes Example.resource_policy_authorization
      Example.resource_policy_writes Example.get_account_id Example.can_privesc
      Example.searchable_name Example.describe_edge Example.graph Example.world)
    as (_ & Hmfa & _).
  eexists. split; [vm_compute; reflexivity|].
  apply (Hmfa [Example.alice] _ _ eq_refl eq_refl). left. reflexivity.
Defined.

Lemma node_order_changes_no_finding_witness :
  exists users l,
    fst (mfa_affected_users (list string) Example.local_check_authorization_handling_mfa
      Example.local_check_writes Example.graph Example.world) = Ok users
    /\ fst (gen_mfa_actions_findings (list string) Example.local_check_authorization_handling_mfa
      Example.local_check_writes Example.searchable_name Example.graph Example.world) = Ok l
    /\ Permutation [Example.alice] users
    /\ ["Administrative IAM User Can Call Sensitive Actions Without MFA"]
       = map title l.
Proof.
  destruct (node_order_changes_no_finding (list string) Example.local_check_authorization_handling_mfa
      Example.local_check_writes Example.resource_policy_authorization
      Example.resource_policy_writes Example.get_account_id Example.searchable_name Example.graph_reordered Example.graph
              Example.world) as (Hmfa & _).
  - simpl. apply perm_swap.
  - apply (Hmfa [Example.alice] _ eq_refl eq_refl).
Defined.

Lemma admin_findings_read_admins_only_witness :
  gen_mfa_actions_findings (list string) Example.local_check_authorization_handling_mfa
      Example.local_check_writes Example.searchable_name Example.graph_of_admins Example.world
  = gen_mfa_actions_findings (list string) Example.local_check_authorization_handling_mfa
      Example.local_check_writes Example.searchable_name Example.graph Example.world.
Proof.
  destruct (admin_findings_read_admins_only (list string) Example.local_check_authorization_handling_mfa
      Example.local_check_writes Example.resource_policy_authorization
      Example.resource_policy_writes Example.get_account_id Example.searchable_name Example.graph_of_admins Example.graph
              Example.world) as (Hmfa & _).
  - reflexivity.
  - exact Hmfa.
Defined.

Lemma no_admin_only_privesc_witness :
  gen_all_findings (list string) Example.local_check_authorization_handling_mfa
      Example.local_check_writes Example.resource_policy_authorization
      Example.resource_policy_writes Example.get_account_id Example.can_privesc
      Example.searchable_name Example.describe_edge Example.graph_without_admins Example.world
  = (gen_privesc_findings Example.can_privesc Example.searchable_name Example.describe_edge Example.graph_without_admins, Example.world).
Proof.
  destruct (no_admin_only_privesc (list string) Example.local_check_authorization_handling_mfa
      Example.local_check_writes Example.resource_policy_authorization
      Example.resource_policy_writes Example.get_account_id Example.can_privesc
      Example.searchable_name Example.describe_edge Example.graph_without_admins Example.world)
    as (_ & _ & _ & _ & Hall).
  - intros node Hin. simpl in Hin.
    destruct Hin as [<-|[<-|[]]]; reflexivity.
  - exact Hall.
Defined.

Lemma gen_findings_and_print_formats_witness :
  exists report,
    gen_findings_and_print (list string) Example.local_check_authorization_handling_mfa
      Example.local_check_writes Example.resource_policy_authorization
      Example.resource_policy_writes Example.get_account_id Example.can_privesc
      Example.searchable_name Example.describe_edge "1.0.0"
      (list (string * string)) Example.as_dictionary Example.json_dumps Example.isoformat "yaml" Example.world_without_nodes EmptyString
    = (Ok tt, Example.world_without_nodes,
       EmptyString +:+ Example.json_dumps (Example.as_dictionary report) 4 +:+ nl).
Proof.
  eexists.
  refine (proj2 (gen_findings_and_print_formats (list string) Example.local_check_authorization_handling_mfa
      Example.local_check_writes Example.resource_policy_authorization
      Example.resource_policy_writes Example.get_account_id Example.can_privesc
      Example.searchable_name Example.describe_edge "1.0.0"
      (list (string * string)) Example.as_dictionary Example.json_dumps Example.isoformat
                   "yaml" Example.world_without_nodes EmptyString _ _) _).
  - vm_compute. reflexivity.
  - discriminate.
Defined.

Lemma no_nodes_none_found_witness :
  gen_all_findings (list string) Example.local_check_authorization_handling_mfa
      Example.local_check_writes Example.resource_policy_authorization
      Example.resource_policy_writes Example.get_account_id Example.can_privesc
      Example.searchable_name Example.describe_edge (w_graph Example.world_without_nodes)
    Example.world_without_nodes
  = (Ok [], Example.world_without_nodes).
Proof.
  destruct (no_nodes_none_found (list string) Example.local_check_authorization_handling_mfa
      Example.local_check_writes Example.resource_policy_authorization
      Example.resource_policy_writes Example.get_account_id Example.can_privesc
      Example.searchable_name Example.describe_edge "1.0.0"
      (list (string * string)) Example.as_dictionary Example.json_dumps Example.isoformat Example.world_without_nodes
              "000000000000" EmptyString) as (Hall & _).
  - reflexivity.
  - vm_compute. reflexivity.
  - exact Hall.
Defined.

Lemma get_session_without_profile_returns_witness :
  exists session,
    BotoTools.get_session Example.boto3 None (Some "arn:aws:iam::000000000000:role/ops")
    = Ok session.
Proof.
  apply (get_session_without_profile_returns Example.boto3
           (Some "arn:aws:iam::000000000000:role/ops")).
  exact example_boto3_never_raises.
Defined.

Lemma assume_role_returns_default_only_witness :
  BotoTools.Session_init Example.boto3 None None
  = Ok (BotoTools.mkSession None None).
Proof.
  destruct (assume_role_returns_default_only Example.boto3) as (_ & Honly).
  destruct (Honly None (BotoTools.mkSession None None)) as (_ & Hinit).
  - reflexivity.
  - exact Hinit.
Defined.

End Examples.
